(** * generate_dev_files: a shallow embedding and its properties

    The script [generate_dev_files.py] holds a static catalog of Markdown
    bodies per (language, topic), a fallback template for pairs the catalog
    misses, and a loop that writes randomly chosen
    [developer.language.topic.md] files into a directory.

    Conventions of the embedding.
    - A Python [str] is a [string]: the sequence of bytes of its UTF-8
      encoding, which is also what the script writes to disk.  Case mapping
      ([str.title]) is given on the ASCII letters; bytes above 127 are left
      alone and count as uncased.  Every text the script itself feeds to
      [title] (developer, language and topic names) is ASCII.
    - A Python [int] is a [Z]; [len] returns a [Z].
    - A [dict] is an association list in insertion order, as Python keeps it.
    - A Python exception is a constructor of [exn]; code that may raise
      returns a [result].  Code that also draws random numbers or touches
      the file system runs in the monad [M] over a [world].
    - The module [random] is not part of the script: it is modelled by its
      documented contract, driven by a list of raw draws ([entropy]).
    - The file system holds directories at its top and plain files in
      them.  A directory is named by a plain name ([simple_name]: not
      empty, not [.] or [..], no separator), which [Path] leaves as it is;
      a name such as [./eyes] is outside the model.  Of the failures of
      [open] only the missing directory is modelled, not a regular file in
      the place of the directory, permissions or a full disk.  The order
      of the entries of a directory has no meaning.
    - Console output ([print]) is not part of the state. *)

From Stdlib Require Import String Ascii List Bool Arith ZArith Lia.
Import ListNotations.
Open Scope list_scope.
Open Scope string_scope.

Set Implicit Arguments.

(* ================================================================== *)
(** * Part I. Definitions *)
(* ================================================================== *)

(** ** Exceptions and results *)

Inductive exn : Type :=
| KeyError (key : string)
| ValueError
| IndexError
| FileNotFoundError (directory filename : string).

Inductive result (A : Type) : Type :=
| Ok (a : A)
| Raise (e : exn).

Arguments Ok {A} a.
Arguments Raise {A} e.

Class Monad (m : Type -> Type) : Type :=
  { ret : forall {A : Type}, A -> m A
  ; bind : forall {A B : Type}, m A -> (A -> m B) -> m B }.

Notation "x <- c1 ;; c2" := (bind c1 (fun x => c2))
  (at level 61, c1 at next level, right associativity).
Notation "c1 ;; c2" := (bind c1 (fun _ => c2))
  (at level 61, right associativity).

#[global] Instance Monad_result : Monad result :=
  { ret := fun A a => Ok a
  ; bind := fun A B c k => match c with Ok a => k a | Raise e => Raise e end }.

(** ** Python strings *)

Module Str.

Definition chr (n : nat) : string := String (ascii_of_nat n) EmptyString.

(** The line feed and the double quote, given by their codes. *)
Definition nl : string := chr 10.
Definition dq : string := chr 34.

(** A text given line by line: every line is ended by a line feed. *)
Definition text (ls : list string) : string :=
  fold_right (fun l acc => l ++ nl ++ acc) "" ls.

Definition is_upper (c : ascii) : bool :=
  let n := nat_of_ascii c in (65 <=? n)%nat && (n <=? 90)%nat.

Definition is_lower (c : ascii) : bool :=
  let n := nat_of_ascii c in (97 <=? n)%nat && (n <=? 122)%nat.

Definition is_cased (c : ascii) : bool := is_upper c || is_lower c.

Definition to_upper (c : ascii) : ascii :=
  if is_lower c then ascii_of_nat (nat_of_ascii c - 32) else c.

Definition to_lower (c : ascii) : ascii :=
  if is_upper c then ascii_of_nat (nat_of_ascii c + 32) else c.

(** [str.title]: a letter that follows a cased character is lowered, any
    other letter is raised.  Only the letters of ASCII are cased here; on a
    cased letter beyond ASCII the result of Python differs. *)
Fixpoint title_from (previous_is_cased : bool) (s : string) : string :=
  match s with
  | EmptyString => EmptyString
  | String c s' =>
      String (if previous_is_cased then to_lower c else to_upper c)
             (title_from (is_cased c) s')
  end.

Definition title (s : string) : string := title_from false s.

(** [s.replace(old, new)] for one-character [old] and [new]. *)
Fixpoint replace (old new : ascii) (s : string) : string :=
  match s with
  | EmptyString => EmptyString
  | String c s' =>
      String (if Ascii.eqb c old then new else c) (replace old new s')
  end.

(** [s.split(sep)] for a one-character [sep]. *)
Fixpoint split (sep : ascii) (s : string) : list string :=
  match s with
  | EmptyString => [EmptyString]
  | String c s' =>
      if Ascii.eqb c sep then EmptyString :: split sep s'
      else match split sep s' with
           | [] => [String c EmptyString]
           | field :: fields => String c field :: fields
           end
  end.

(** [s.startswith(p)]. *)
Fixpoint startswith (p s : string) : bool :=
  match p, s with
  | EmptyString, _ => true
  | String a p', String b s' => Ascii.eqb a b && startswith p' s'
  | String _ _, EmptyString => false
  end.

(** [needle in hay]. *)
Fixpoint contains (needle hay : string) : bool :=
  startswith needle hay
  || match hay with
     | EmptyString => false
     | String _ hay' => contains needle hay'
     end.

(** [s.endswith(p)]. *)
Fixpoint endswith (p s : string) : bool :=
  String.eqb p s
  || match s with
     | EmptyString => false
     | String _ s' => endswith p s'
     end.

(** [c in s] for a character. *)
Fixpoint has_char (c : ascii) (s : string) : bool :=
  match s with
  | EmptyString => false
  | String a s' => Ascii.eqb a c || has_char c s'
  end.

End Str.

(** ** Python dictionaries *)

Module Dict.

Definition dict (V : Type) : Type := list (string * V).

Section Operations.
Variable V : Type.

(** [list(d.keys())] *)
Definition keys (d : dict V) : list string := map fst d.

(** [k in d] *)
Definition mem (k : string) (d : dict V) : bool :=
  existsb (String.eqb k) (keys d).

(** [d.get(k)] *)
Fixpoint get (d : dict V) (k : string) : option V :=
  match d with
  | [] => None
  | (k', v) :: d' => if String.eqb k k' then Some v else get d' k
  end.

(** [d[k]] *)
Definition getitem (d : dict V) (k : string) : result V :=
  match get d k with
  | Some v => Ok v
  | None => Raise (KeyError k)
  end.

(** [d[k] = v]: an existing key keeps its place, a new one goes last. *)
Fixpoint set (d : dict V) (k : string) (v : V) : dict V :=
  match d with
  | [] => [(k, v)]
  | (k', v') :: d' =>
      if String.eqb k k' then (k', v) :: d' else (k', v') :: set d' k v
  end.
End Operations.

End Dict.

Import Str Dict.

(** ** The world: random draws and the file system *)

(** A directory maps file names to file contents; the file system maps the
    names of the existing directories to their contents.  The order of the
    entries stands for nothing on disk. *)
Definition directory : Type := dict string.
Definition file_system : Type := dict directory.

Record world : Type := mkWorld
  { entropy : list nat
  ; fs : file_system }.

Definition M (A : Type) : Type := world -> result A * world.

#[global] Instance Monad_M : Monad M :=
  { ret := fun A a w => (Ok a, w)
  ; bind := fun A B c k w =>
      match c w with
      | (Ok a, w') => k a w'
      | (Raise e, w') => (Raise e, w')
      end }.

Definition raise {A : Type} (e : exn) : M A := fun w => (Raise e, w).

(** A computation that can only raise, run where the world is at hand. *)
Definition lift {A : Type} (r : result A) : M A := fun w => (r, w).

(** [len(l)] *)
Definition len {A : Type} (l : list A) : Z := Z.of_nat (length l).

(** ** The module [random] *)

Module Random.

(** The next raw draw of the generator (0 once the list is used up). *)
Definition draw : M nat :=
  fun w => (Ok (hd 0 (entropy w)), mkWorld (tl (entropy w)) (fs w)).

(** A number below [n], for [n > 0]. *)
Definition randbelow (n : nat) : M nat :=
  d <- draw ;; ret (d mod n).

(** [random.randint(a, b)]: an integer [N] with [a <= N <= b]. *)
Definition randint (a b : Z) : M Z :=
  if (b <? a)%Z then raise ValueError
  else r <- randbelow (Z.to_nat (b - a + 1)) ;; ret (a + Z.of_nat r)%Z.

(** [random.choice(seq)] *)
Definition choice {A : Type} (seq : list A) : M A :=
  match seq with
  | [] => raise IndexError
  | _ :: _ =>
      i <- randbelow (length seq) ;;
      match nth_error seq i with
      | Some x => ret x
      | None => raise IndexError
      end
  end.

(** The list without its element at position [i]. *)
Fixpoint remove_nth {A : Type} (i : nat) (l : list A) {struct l} : list A :=
  match l, i with
  | [], _ => []
  | _ :: l', O => l'
  | x :: l', S i' => x :: remove_nth i' l'
  end.

(** [k] picks without replacement: each pick leaves the pool. *)
Fixpoint sample_from {A : Type} (pool : list A) (k : nat) : M (list A) :=
  match k with
  | O => ret []
  | S k' =>
      i <- randbelow (length pool) ;;
      match nth_error pool i with
      | Some x =>
          picked <- sample_from (remove_nth i pool) k' ;;
          ret (x :: picked)
      | None => raise ValueError
      end
  end.

(** [random.sample(population, k)] *)
Definition sample {A : Type} (population : list A) (k : Z) : M (list A) :=
  if (k <? 0)%Z || (len population <? k)%Z then raise ValueError
  else sample_from population (Z.to_nat k).

End Random.

(** ** The file system *)

(** [with open(directory / filename, 'w') as f: f.write(content)], for a
    directory of a plain name: the file is created or replaced; the
    directory itself must exist.  A missing directory is the one failure
    of [open] that is modelled. *)
Definition write_file (directory_name filename content : string) : M unit :=
  fun w =>
    match Dict.get (fs w) directory_name with
    | Some entries =>
        (Ok tt,
         mkWorld (entropy w)
                 (Dict.set (fs w) directory_name
                           (Dict.set entries filename content)))
    | None => (Raise (FileNotFoundError directory_name filename), w)
    end.

(** ** The configuration *)

(** Developer names *)
Definition DEVELOPERS : list string :=
  [ "ghonDou"; "sarahLee"; "alexChen"; "mariaSilva"; "johnSmith"
  ; "linaWang"; "davidJones"; "annaKowalski"; "rajPatel"; "emmaWhite" ].

(** The value kept for a language: its ["topics"] and its ["content"]. *)
Record LanguageSpec : Type := mkLanguageSpec
  { topics : list string
  ; content : dict string }.

(** The catalogued bodies, line by line. *)

Definition content_golang_code_styling : string := text
  [ "# Golang Code Styling Guidelines"
  ; ""
  ; "## General Principles"
  ; "- Use `gofmt` to format your code automatically"
  ; "- Follow the official Go Code Review Comments guidelines"
  ; "- Use camelCase for exported functions and PascalCase for types"
  ; ""
  ; "## Naming Conventions"
  ; "- Package names should be short, lowercase, single words"
  ; "- Interface names should end with 'er' when possible"
  ; "- Use descriptive names for variables with longer scope"
  ; ""
  ; "## Function Structure"
  ; "- Keep functions small and focused on a single responsibility"
  ; "- Group related functionality into packages"
  ; "- Use early returns to reduce nesting"
  ; ""
  ; "## Comments"
  ; "- Comment exported functions, types, and variables"
  ; "- Use complete sentences in comments"
  ; "- Avoid obvious comments"
  ; ""
  ; "## Error Handling"
  ; "- Always handle errors explicitly"
  ; "- Don't ignore errors with `_`"
  ; "- Use custom error types when appropriate"
  ].

Definition content_golang_error_handling : string := text
  [ "# Golang Error Handling Best Practices"
  ; ""
  ; "## Core Principles"
  ; "- Errors are values, not exceptions"
  ; "- Handle errors immediately where they occur"
  ; "- Don't ignore errors"
  ; ""
  ; "## Error Creation"
  ; "```go"
  ; "// Use errors.New for simple errors"
  ; "err := errors.New(" ++ dq ++ "something went wrong" ++ dq ++ ")"
  ; ""
  ; "// Use fmt.Errorf for formatted errors"
  ; "err := fmt.Errorf(" ++ dq ++ "failed to process %s: %w" ++ dq ++ ", filename, originalErr)"
  ; "```"
  ; ""
  ; "## Error Checking"
  ; "```go"
  ; "if err != nil {"
  ; "    return fmt.Errorf(" ++ dq ++ "operation failed: %w" ++ dq ++ ", err)"
  ; "}"
  ; "```"
  ; ""
  ; "## Custom Error Types"
  ; "- Implement the error interface for domain-specific errors"
  ; "- Use error wrapping to preserve context"
  ; "- Consider sentinel errors for expected error conditions"
  ; ""
  ; "## Testing Errors"
  ; "- Test both success and failure paths"
  ; "- Verify error messages and types"
  ; "- Use testify/assert for error testing"
  ].

Definition content_golang_testing : string := text
  [ "# Golang Testing Guidelines"
  ; ""
  ; "## Test Structure"
  ; "- Follow the AAA pattern: Arrange, Act, Assert"
  ; "- Use table-driven tests for multiple scenarios"
  ; "- Keep tests simple and focused"
  ; ""
  ; "## Test Naming"
  ; "- Use descriptive test function names"
  ; "- Format: `TestFunctionName_Scenario_ExpectedResult`"
  ; "- Example: `TestCalculateTotal_WithValidItems_ReturnsCorrectSum`"
  ; ""
  ; "## Test Organization"
  ; "```go"
  ; "func TestCalculator(t *testing.T) {"
  ; "    tests := []struct {"
  ; "        name     string"
  ; "        input    int"
  ; "        expected int"
  ; "    }{"
  ; "        {" ++ dq ++ "positive number" ++ dq ++ ", 5, 5},"
  ; "        {" ++ dq ++ "zero" ++ dq ++ ", 0, 0},"
  ; "        {" ++ dq ++ "negative number" ++ dq ++ ", -3, -3},"
  ; "    }"
  ; "    "
  ; "    for _, tt := range tests {"
  ; "        t.Run(tt.name, func(t *testing.T) {"
  ; "            result := Calculate(tt.input)"
  ; "            assert.Equal(t, tt.expected, result)"
  ; "        })"
  ; "    }"
  ; "}"
  ; "```"
  ; ""
  ; "## Best Practices"
  ; "- Use testify/require for assertions that should stop the test"
  ; "- Use testify/assert for non-critical assertions"
  ; "- Mock external dependencies"
  ; "- Test edge cases and error conditions"
  ].

Definition content_golang_concurrency : string := text
  [ "# Golang Concurrency Patterns"
  ; ""
  ; "## Goroutines"
  ; "- Use goroutines for concurrent operations"
  ; "- Always have a way to stop goroutines"
  ; "- Don't create goroutines without bounds"
  ; ""
  ; "## Channels"
  ; "- Use channels to communicate between goroutines"
  ; "- Close channels when done sending"
  ; "- Use buffered channels to prevent blocking"
  ; ""
  ; "## Common Patterns"
  ; ""
  ; "### Worker Pool"
  ; "```go"
  ; "func workerPool(jobs <-chan Job, results chan<- Result) {"
  ; "    for job := range jobs {"
  ; "        results <- processJob(job)"
  ; "    }"
  ; "}"
  ; "```"
  ; ""
  ; "### Fan-out/Fan-in"
  ; "- Fan-out: distribute work across multiple goroutines"
  ; "- Fan-in: collect results from multiple goroutines"
  ; ""
  ; "### Pipeline"
  ; "- Chain operations using channels"
  ; "- Each stage processes data and passes to next stage"
  ; ""
  ; "## Synchronization"
  ; "- Use sync.Mutex for protecting shared state"
  ; "- Use sync.WaitGroup to wait for goroutines"
  ; "- Prefer channels over shared memory when possible"
  ].

Definition content_golang_performance : string := text
  [ "# Golang Performance Optimization"
  ; ""
  ; "## Profiling"
  ; "- Use `go tool pprof` for performance analysis"
  ; "- Profile CPU, memory, and goroutine usage"
  ; "- Use benchmarks to measure performance"
  ; ""
  ; "## Memory Management"
  ; "- Avoid unnecessary allocations in hot paths"
  ; "- Reuse slices and maps when possible"
  ; "- Use object pools for expensive objects"
  ; ""
  ; "## Optimization Techniques"
  ; "- Use string.Builder for string concatenation"
  ; "- Prefer slices over arrays for flexibility"
  ; "- Use interfaces wisely - they have overhead"
  ; ""
  ; "## Benchmarking"
  ; "```go"
  ; "func BenchmarkFunction(b *testing.B) {"
  ; "    for i := 0; i < b.N; i++ {"
  ; "        FunctionToTest()"
  ; "    }"
  ; "}"
  ; "```"
  ; ""
  ; "## Common Pitfalls"
  ; "- Premature optimization"
  ; "- Not measuring before optimizing"
  ; "- Micro-optimizations at expense of readability"
  ; "- Ignoring garbage collection impact"
  ].

Definition content_python_code_styling : string := text
  [ "# Python Code Styling Guidelines"
  ; ""
  ; "## PEP 8 Compliance"
  ; "- Use 4 spaces for indentation"
  ; "- Line length maximum of 79 characters"
  ; "- Use snake_case for variables and functions"
  ; "- Use PascalCase for classes"
  ; ""
  ; "## Import Organization"
  ; "```python"
  ; "# Standard library imports"
  ; "import os"
  ; "import sys"
  ; ""
  ; "# Third-party imports"
  ; "import requests"
  ; "import numpy as np"
  ; ""
  ; "# Local imports"
  ; "from myapp import models"
  ; "from . import utils"
  ; "```"
  ; ""
  ; "## Function and Class Design"
  ; "- Keep functions small and focused"
  ; "- Use type hints for better code documentation"
  ; "- Follow the single responsibility principle"
  ; ""
  ; "## Naming Conventions"
  ; "- Variables: `user_name`, `total_count`"
  ; "- Functions: `calculate_total()`, `send_email()`"
  ; "- Classes: `UserManager`, `EmailService`"
  ; "- Constants: `MAX_RETRIES`, `DEFAULT_TIMEOUT`"
  ; ""
  ; "## Documentation"
  ; "- Use docstrings for modules, classes, and functions"
  ; "- Follow Google or NumPy docstring style"
  ; "- Include examples in docstrings when helpful"
  ].

Definition content_python_testing : string := text
  [ "# Python Testing Best Practices"
  ; ""
  ; "## Test Framework"
  ; "- Use pytest as the primary testing framework"
  ; "- Organize tests in separate test files/directories"
  ; "- Use fixtures for setup and teardown"
  ; ""
  ; "## Test Structure"
  ; "```python"
  ; "def test_function_name_scenario_expected_result():"
  ; "    # Arrange"
  ; "    input_data = {" ++ dq ++ "key" ++ dq ++ ": " ++ dq ++ "value" ++ dq ++ "}"
  ; "    "
  ; "    # Act"
  ; "    result = function_under_test(input_data)"
  ; "    "
  ; "    # Assert"
  ; "    assert result == expected_value"
  ; "```"
  ; ""
  ; "## Test Organization"
  ; "- Group related tests in classes"
  ; "- Use parametrize for testing multiple scenarios"
  ; "- Mock external dependencies"
  ; ""
  ; "## Coverage and Quality"
  ; "- Aim for high test coverage (>90%)"
  ; "- Test edge cases and error conditions"
  ; "- Use property-based testing with hypothesis"
  ; ""
  ; "## Fixtures and Mocking"
  ; "```python"
  ; "@pytest.fixture"
  ; "def sample_data():"
  ; "    return {" ++ dq ++ "id" ++ dq ++ ": 1, " ++ dq ++ "name" ++ dq ++ ": " ++ dq ++ "test" ++ dq ++ "}"
  ; ""
  ; "@mock.patch('module.external_service')"
  ; "def test_with_mock(mock_service):"
  ; "    mock_service.return_value = " ++ dq ++ "mocked_response" ++ dq
  ; "    # Test code here"
  ; "```"
  ].

Definition content_python_packaging : string := text
  [ "# Python Packaging Guidelines"
  ; ""
  ; "## Project Structure"
  ; "```"
  ; "project/"
  ; "├── src/"
  ; "│   └── mypackage/"
  ; "│       ├── __init__.py"
  ; "│       └── module.py"
  ; "├── tests/"
  ; "├── pyproject.toml"
  ; "├── README.md"
  ; "└── requirements.txt"
  ; "```"
  ; ""
  ; "## Dependency Management"
  ; "- Use virtual environments for isolation"
  ; "- Pin dependency versions in requirements.txt"
  ; "- Use requirements-dev.txt for development dependencies"
  ; ""
  ; "## Setup Configuration"
  ; "```toml"
  ; "[build-system]"
  ; "requires = [" ++ dq ++ "setuptools>=45" ++ dq ++ ", " ++ dq ++ "wheel" ++ dq ++ "]"
  ; "build-backend = " ++ dq ++ "setuptools.build_meta" ++ dq
  ; ""
  ; "[project]"
  ; "name = " ++ dq ++ "mypackage" ++ dq
  ; "version = " ++ dq ++ "0.1.0" ++ dq
  ; "description = " ++ dq ++ "A sample package" ++ dq
  ; "dependencies = ["
  ; "    " ++ dq ++ "requests>=2.25.0" ++ dq ++ ","
  ; "    " ++ dq ++ "click>=7.0" ++ dq ++ ","
  ; "]"
  ; "```"
  ; ""
  ; "## Distribution"
  ; "- Use semantic versioning (MAJOR.MINOR.PATCH)"
  ; "- Include comprehensive README and CHANGELOG"
  ; "- Use GitHub Actions for CI/CD"
  ; "- Publish to PyPI using twine"
  ].

Definition content_python_performance : string := text
  [ "# Python Performance Optimization"
  ; ""
  ; "## Profiling Tools"
  ; "- Use cProfile for code profiling"
  ; "- Use memory_profiler for memory analysis"
  ; "- Use line_profiler for line-by-line analysis"
  ; ""
  ; "## Common Optimizations"
  ; "- Use list comprehensions over loops when appropriate"
  ; "- Prefer generators for large datasets"
  ; "- Use built-in functions (they're optimized in C)"
  ; ""
  ; "## Data Structures"
  ; "- Choose appropriate data structures (set vs list)"
  ; "- Use collections module (deque, Counter, defaultdict)"
  ; "- Consider numpy for numerical computations"
  ; ""
  ; "## Algorithm Optimization"
  ; "```python"
  ; "# Bad: O(n²)"
  ; "for i in list1:"
  ; "    if i in list2:  # Linear search each time"
  ; "        result.append(i)"
  ; ""
  ; "# Good: O(n)"
  ; "set2 = set(list2)  # Convert to set once"
  ; "for i in list1:"
  ; "    if i in set2:  # Constant time lookup"
  ; "        result.append(i)"
  ; "```"
  ; ""
  ; "## Memory Management"
  ; "- Use __slots__ for classes with many instances"
  ; "- Delete large objects when done"
  ; "- Use weak references to break circular references"
  ].

Definition content_python_async : string := text
  [ "# Python Asynchronous Programming"
  ; ""
  ; "## asyncio Basics"
  ; "- Use async/await for asynchronous operations"
  ; "- Run async functions with asyncio.run()"
  ; "- Use async context managers and iterators"
  ; ""
  ; "## Common Patterns"
  ; "```python"
  ; "import asyncio"
  ; "import aiohttp"
  ; ""
  ; "async def fetch_data(url):"
  ; "    async with aiohttp.ClientSession() as session:"
  ; "        async with session.get(url) as response:"
  ; "            return await response.text()"
  ; ""
  ; "async def main():"
  ; "    urls = [" ++ dq ++ "http://example1.com" ++ dq ++ ", " ++ dq ++ "http://example2.com" ++ dq ++ "]"
  ; "    tasks = [fetch_data(url) for url in urls]"
  ; "    results = await asyncio.gather(" ++ "*tasks)"
  ; "    return results"
  ; "```"
  ; ""
  ; "## Best Practices"
  ; "- Don't mix blocking and non-blocking code"
  ; "- Use asyncio.gather() for concurrent operations"
  ; "- Handle exceptions properly in async code"
  ; "- Use async libraries (aiohttp, asyncpg) for I/O"
  ; ""
  ; "## Performance Considerations"
  ; "- Async is best for I/O-bound operations"
  ; "- Use thread pools for CPU-bound work"
  ; "- Monitor event loop performance"
  ; "- Avoid blocking operations in async functions"
  ].

Definition content_javascript_code_styling : string := text
  [ "# JavaScript Code Styling Guidelines"
  ; ""
  ; "## ESLint and Prettier"
  ; "- Use ESLint for code linting"
  ; "- Use Prettier for code formatting"
  ; "- Configure both in your project"
  ; ""
  ; "## Variable Declarations"
  ; "- Use `const` by default"
  ; "- Use `let` when reassignment is needed"
  ; "- Avoid `var` completely"
  ; ""
  ; "## Function Declarations"
  ; "```javascript"
  ; "// Prefer arrow functions for short functions"
  ; "const add = (a, b) => a + b;"
  ; ""
  ; "// Use function declarations for named functions"
  ; "function calculateTotal(items) {"
  ; "    return items.reduce((sum, item) => sum + item.price, 0);"
  ; "}"
  ; "```"
  ; ""
  ; "## Object and Array Destructuring"
  ; "```javascript"
  ; "// Object destructuring"
  ; "const { name, age } = user;"
  ; ""
  ; "// Array destructuring"
  ; "const [first, second] = items;"
  ; ""
  ; "// Function parameters"
  ; "function greet({ name, age = 0 }) {"
  ; "    return `Hello ${name}, you are ${age} years old`;"
  ; "}"
  ; "```"
  ; ""
  ; "## Modern Syntax"
  ; "- Use template literals for string interpolation"
  ; "- Use optional chaining (?.) and nullish coalescing (??)"
  ; "- Prefer async/await over Promise chains"
  ].

Definition content_javascript_testing : string := text
  [ "# JavaScript Testing Best Practices"
  ; ""
  ; "## Testing Framework"
  ; "- Use Jest for unit and integration testing"
  ; "- Use Testing Library for React component testing"
  ; "- Use Cypress or Playwright for E2E testing"
  ; ""
  ; "## Test Structure"
  ; "```javascript"
  ; "describe('Calculator', () => {"
  ; "    test('should add two numbers correctly', () => {"
  ; "        // Arrange"
  ; "        const a = 5;"
  ; "        const b = 3;"
  ; "        "
  ; "        // Act"
  ; "        const result = add(a, b);"
  ; "        "
  ; "        // Assert"
  ; "        expect(result).toBe(8);"
  ; "    });"
  ; "});"
  ; "```"
  ; ""
  ; "## Mocking and Spies"
  ; "```javascript"
  ; "// Mock functions"
  ; "const mockFn = jest.fn();"
  ; "mockFn.mockReturnValue('mocked value');"
  ; ""
  ; "// Spy on methods"
  ; "const spy = jest.spyOn(object, 'method');"
  ; "expect(spy).toHaveBeenCalledWith(expectedArgs);"
  ; "```"
  ; ""
  ; "## Async Testing"
  ; "```javascript"
  ; "test('async function test', async () => {"
  ; "    const result = await fetchData();"
  ; "    expect(result).toBeDefined();"
  ; "});"
  ; ""
  ; "test('promise rejection', async () => {"
  ; "    await expect(failingFunction()).rejects.toThrow('Error message');"
  ; "});"
  ; "```"
  ; ""
  ; "## Best Practices"
  ; "- Write tests before or alongside code (TDD)"
  ; "- Test behavior, not implementation"
  ; "- Keep tests simple and focused"
  ; "- Use descriptive test names"
  ].

Definition content_react_components : string := text
  [ "# React Components Best Practices"
  ; ""
  ; "## Functional Components"
  ; "- Always use functional components over class components"
  ; "- Keep components small and focused"
  ; "- Use TypeScript for better type safety"
  ; ""
  ; "## Component Structure"
  ; "```jsx"
  ; "import React from 'react';"
  ; "import PropTypes from 'prop-types';"
  ; ""
  ; "const UserCard = ({ user, onEdit, className = '' }) => {"
  ; "    return ("
  ; "        <div className={`user-card ${className}`}>"
  ; "            <h3>{user.name}</h3>"
  ; "            <p>{user.email}</p>"
  ; "            <button onClick={() => onEdit(user.id)}>"
  ; "                Edit User"
  ; "            </button>"
  ; "        </div>"
  ; "    );"
  ; "};"
  ; ""
  ; "UserCard.propTypes = {"
  ; "    user: PropTypes.shape({"
  ; "        id: PropTypes.number.isRequired,"
  ; "        name: PropTypes.string.isRequired,"
  ; "        email: PropTypes.string.isRequired,"
  ; "    }).isRequired,"
  ; "    onEdit: PropTypes.func.isRequired,"
  ; "    className: PropTypes.string,"
  ; "};"
  ; ""
  ; "export default UserCard;"
  ; "```"
  ; ""
  ; "## Component Organization"
  ; "- One component per file"
  ; "- Use index.js files for cleaner imports"
  ; "- Group related components in folders"
  ; "- Separate presentation and container components"
  ].

Definition content_react_hooks : string := text
  [ "# React Hooks Guidelines"
  ; ""
  ; "## Built-in Hooks"
  ; "```jsx"
  ; "import React, { useState, useEffect, useMemo, useCallback } from 'react';"
  ; ""
  ; "const UserList = ({ users, onUserSelect }) => {"
  ; "    const [filter, setFilter] = useState('');"
  ; "    const [loading, setLoading] = useState(false);"
  ; "    "
  ; "    // Memoize expensive calculations"
  ; "    const filteredUsers = useMemo(() => {"
  ; "        return users.filter(user => "
  ; "            user.name.toLowerCase().includes(filter.toLowerCase())"
  ; "        );"
  ; "    }, [users, filter]);"
  ; "    "
  ; "    // Memoize callback functions"
  ; "    const handleUserClick = useCallback((user) => {"
  ; "        onUserSelect(user);"
  ; "    }, [onUserSelect]);"
  ; "    "
  ; "    useEffect(() => {"
  ; "        // Side effects here"
  ; "        setLoading(true);"
  ; "        // Cleanup function"
  ; "        return () => {"
  ; "            setLoading(false);"
  ; "        };"
  ; "    }, []);"
  ; "    "
  ; "    return ("
  ; "        <div>"
  ; "            <input "
  ; "                value={filter} "
  ; "                onChange={(e) => setFilter(e.target.value)} "
  ; "            />"
  ; "            {filteredUsers.map(user => ("
  ; "                <UserCard "
  ; "                    key={user.id} "
  ; "                    user={user} "
  ; "                    onClick={handleUserClick}"
  ; "                />"
  ; "            ))}"
  ; "        </div>"
  ; "    );"
  ; "};"
  ; "```"
  ; ""
  ; "## Custom Hooks"
  ; "- Extract reusable logic into custom hooks"
  ; "- Start custom hook names with 'use'"
  ; "- Return objects for multiple values"
  ].


(** Programming languages with their topics and content *)
Definition LANGUAGE_CONTENT : dict LanguageSpec :=
  [ ("golang",
     {| topics := [ "code-styling"; "error-handling"; "testing"
                  ; "concurrency"; "performance" ]
      ; content := [ ("code-styling", content_golang_code_styling)
                   ; ("error-handling", content_golang_error_handling)
                   ; ("testing", content_golang_testing)
                   ; ("concurrency", content_golang_concurrency)
                   ; ("performance", content_golang_performance) ] |})
  ; ("python",
     {| topics := [ "code-styling"; "testing"; "packaging"
                  ; "performance"; "async" ]
      ; content := [ ("code-styling", content_python_code_styling)
                   ; ("testing", content_python_testing)
                   ; ("packaging", content_python_packaging)
                   ; ("performance", content_python_performance)
                   ; ("async", content_python_async) ] |})
  ; ("javascript",
     {| topics := [ "code-styling"; "testing"; "async"
                  ; "modules"; "performance" ]
      ; content := [ ("code-styling", content_javascript_code_styling)
                   ; ("testing", content_javascript_testing) ] |})
  ; ("react",
     {| topics := [ "components"; "hooks"; "state-management"
                  ; "performance"; "testing" ]
      ; content := [ ("components", content_react_components)
                   ; ("hooks", content_react_hooks) ] |}) ].

(** ** The program *)

(** [LANGUAGE_CONTENT[language]["content"]] *)
Definition catalog_content (language : string) : result (dict string) :=
  spec <- getitem LANGUAGE_CONTENT language ;; ret (content spec).

(** [LANGUAGE_CONTENT[language]["topics"]] *)
Definition catalog_topics (language : string) : result (list string) :=
  spec <- getitem LANGUAGE_CONTENT language ;; ret (topics spec).

(** The f-string returned when no content is catalogued. *)
Definition fallback_content (language topic : string) : string := text
  [ "# " ++ title language ++ " " ++ title (replace "-" " " topic) ++ " Guidelines"
  ; ""
  ; "## Overview"
  ; "This document contains best practices and guidelines for " ++ replace "-" " " topic ++ " in " ++ title language ++ "."
  ; ""
  ; "## Key Principles"
  ; "1. Write clean, readable code"
  ; "2. Follow established conventions"
  ; "3. Test your code thoroughly"
  ; "4. Document important decisions"
  ; "5. Keep learning and improving"
  ; ""
  ; "## Best Practices"
  ; "- Follow the community standards for " ++ language
  ; "- Use appropriate tools and frameworks"
  ; "- Write comprehensive tests"
  ; "- Document your code properly"
  ; "- Review code regularly"
  ; ""
  ; "## Resources"
  ; "- Official " ++ language ++ " documentation"
  ; "- Community style guides"
  ; "- Popular frameworks and libraries"
  ; "- Testing tools and practices"
  ; ""
  ; "## Common Pitfalls"
  ; "- Not following established patterns"
  ; "- Ignoring performance implications"
  ; "- Insufficient testing"
  ; "- Poor error handling"
  ; "- Lack of documentation"
  ; ""
  ; "---"
  ; "*This is a template document. Please customize with specific " ++ language ++ " " ++ topic ++ " guidelines.*"
  ].

(** Get content for a specific language and topic.  The second operand of
    [and] is evaluated only when the first holds. *)
Definition get_content_for_topic (language topic : string) : result string :=
  found <- (if Dict.mem language LANGUAGE_CONTENT
            then entries <- catalog_content language ;;
                 ret (Dict.mem topic entries)
            else ret false) ;;
  if found : bool
  then entries <- catalog_content language ;; getitem entries topic
  else ret (fallback_content language topic).

(** The name of the file of a developer, a language and a topic. *)
Definition file_name (developer language topic : string) : string :=
  developer ++ "." ++ language ++ "." ++ topic ++ ".md".

(** The body of the loop over the selected developers; [files_created] is
    the list built so far. *)
Fixpoint create_files_loop (directory_name : string)
    (selected_developers files_created : list string) : M (list string) :=
  match selected_developers with
  | [] => ret files_created
  | developer :: remaining =>
      language <- Random.choice (Dict.keys LANGUAGE_CONTENT) ;;
      available_topics <- lift (catalog_topics language) ;;
      topic <- Random.choice available_topics ;;
      let filename := file_name developer language topic in
      content <- lift (get_content_for_topic language topic) ;;
      write_file directory_name filename content ;;
      create_files_loop directory_name remaining
                        (files_created ++ [filename])%list
  end.

(** Create files for a specific directory. *)
Definition create_files_for_directory (directory_name : string)
  : M (list string) :=
  num_files <- Random.randint 3 6 ;;
  selected_developers <-
    Random.sample DEVELOPERS (Z.min num_files (len DEVELOPERS)) ;;
  create_files_loop directory_name selected_developers [].

(** ** The vocabulary of the properties *)

(** The body the catalog holds for a pair, if it holds one. *)
Definition catalogued (language topic : string) : option string :=
  match Dict.get LANGUAGE_CONTENT language with
  | Some spec => Dict.get (content spec) topic
  | None => None
  end.

(** The words by which a generated body tells that it is a template. *)
Definition placeholder_marker : string := "template document".

(** The topic as a reader sees it: ['-'] as a space, title-cased. *)
Definition human_readable (topic : string) : string :=
  title (replace "-" " " topic).

(** The lines of a body, and the two places a line can be: a Markdown
    heading starts with [#], any other line is running text. *)
Definition lines (body : string) : list string := split "010" body.

Definition is_heading (line : string) : bool := startswith "#" line.

Definition in_heading (x body : string) : bool :=
  existsb (fun line => is_heading line && contains x line) (lines body).

Definition in_sentence (x body : string) : bool :=
  existsb (fun line => negb (is_heading line) && contains x line)
          (lines body).

(** The components of a file name, and the first of them. *)
Definition components (filename : string) : list string :=
  split "." filename.

Definition developer_of (filename : string) : string :=
  hd "" (components filename).

(** The topics the catalog declares for a language but holds no body for. *)
Definition declared_without_content : list (string * string) :=
  [ ("javascript", "async"); ("javascript", "modules")
  ; ("javascript", "performance"); ("react", "state-management")
  ; ("react", "performance"); ("react", "testing") ].

(** The body [get_content_for_topic] is to return: the catalogued one, or
    the template. *)
Definition content_for (language topic : string) : string :=
  match catalogued language topic with
  | Some body => body
  | None => fallback_content language topic
  end.

(** What one turn of the loop settles: the developer it runs for and the
    language and topic it draws. *)
Definition pick : Type := (string * string * string)%type.

Definition pick_developer (p : pick) : string := fst (fst p).

Definition pick_file (p : pick) : string :=
  let '(developer, language, topic) := p in file_name developer language topic.

Definition pick_body (p : pick) : string :=
  let '(_, language, topic) := p in content_for language topic.

(** A pick the catalog allows: a language it has, a topic of that language. *)
Definition declared (language topic : string) : Prop :=
  exists spec,
    Dict.get LANGUAGE_CONTENT language = Some spec /\ In topic (topics spec).

Definition valid_pick (p : pick) : Prop :=
  let '(developer, language, topic) := p in
  In developer DEVELOPERS /\ declared language topic.

(** A directory after the files of the picks were written, in order. *)
Definition write_picks (entries : directory) (ps : list pick) : directory :=
  fold_left (fun e p => Dict.set e (pick_file p) (pick_body p)) ps entries.

(** Names that hold no dot, and the entries of the catalog whose language
    and topics are such names, with at least one topic. *)
Definition plain (s : string) : bool := negb (has_char "." s).

Definition plain_entry (e : string * LanguageSpec) : bool :=
  plain (fst e)
  && negb (Nat.eqb (length (topics (snd e))) 0)
  && forallb plain (topics (snd e)).

(** The bodies of a catalog entry that do not hold the marker. *)
Definition marker_free (e : string * LanguageSpec) : bool :=
  forallb (fun kv => negb (contains placeholder_marker (snd kv)))
          (content (snd e)).

(** A world to run the script in: some draws, and an empty directory
    [eyes]. *)
Definition example_world : world :=
  mkWorld [2; 7; 3; 0; 9; 2; 2; 1; 3; 4; 5; 6; 7; 8] [("eyes", [])].

(** ** The entry point *)

(** [directory_path.exists()], for a plain name at the top of the file
    system, where a name names a directory or nothing: a regular file of
    that name, for which [exists] is true as well, is outside the model. *)
Definition path_exists (directory_name : string) : M bool :=
  fun w => (Ok (Dict.mem directory_name (fs w)), w).

(** [directory_path.mkdir(parents=True, exist_ok=True)]: an empty directory
    is created; one that exists is left as it is. *)
Definition mkdir (directory_name : string) : M unit :=
  fun w =>
    if Dict.mem directory_name (fs w) then (Ok tt, w)
    else (Ok tt, mkWorld (entropy w) (Dict.set (fs w) directory_name [])).

(** The directories of [main]. *)
Definition directories : list string :=
  ["eyes"; "fleet"; "flex"; "ido"; "mind"].

(** The loop of [main] over the directories left to do; [total_files] is
    the count so far. *)
Fixpoint main_loop (todo : list string) (total_files : Z) : M Z :=
  match todo with
  | [] => ret total_files
  | directory :: remaining =>
      present <- path_exists directory ;;
      (if present : bool then ret tt else mkdir directory) ;;
      files <- create_files_for_directory directory ;;
      main_loop remaining (total_files + len files)%Z
  end.

(** Main function to create all files.  In Python it returns nothing; the
    value here is [total_files], which its last [print] reports. *)
Definition main : M Z := main_loop directories 0%Z.

(** ** More vocabulary *)

(** One turn of the loop of [main]. *)
Definition process_directory (directory_name : string) : M (list string) :=
  present <- path_exists directory_name ;;
  (if present : bool then ret tt else mkdir directory_name) ;;
  create_files_for_directory directory_name.

(** The files of a directory, none if it does not exist. *)
Definition files_of (f : file_system) (directory_name : string) : directory :=
  match Dict.get f directory_name with
  | Some entries => entries
  | None => []
  end.

(** Two file systems with the same directories that differ at most in the
    files of one of them. *)
Definition same_but (directory_name : string) (f f' : file_system) : Prop :=
  Dict.keys f' = Dict.keys f /\
  forall other : string,
    other <> directory_name -> Dict.get f' other = Dict.get f other.

(** A computation that changes at most the files of one directory,
    whatever its outcome. *)
Definition confined (A : Type) (directory_name : string) (c : M A) : Prop :=
  forall w : world, same_but directory_name (fs w) (fs (snd (c w))).

(** Every directory and file of [f] is still there in [f'], and a file
    whose name does not start with the name of a developer holds what it
    held. *)
Definition kept (f f' : file_system) : Prop :=
  forall (d : string) (entries : directory),
    Dict.get f d = Some entries ->
    exists entries' : directory,
      Dict.get f' d = Some entries' /\
      forall name body : string,
        Dict.get entries name = Some body ->
        exists body' : string,
          Dict.get entries' name = Some body' /\
          (~ In (developer_of name) DEVELOPERS -> body' = body).

(** The number of files in the given directories. *)
Definition count_files (f : file_system) (ds : list string) : Z :=
  fold_right (fun d n => (len (files_of f d) + n)%Z) 0%Z ds.

(** A body that starts with a top heading and ends with a line feed, and
    the entries of the catalog all of whose bodies are such. *)
Definition well_formed (body : string) : bool :=
  startswith "# " body && endswith nl body.

Definition well_formed_entry (e : string * LanguageSpec) : bool :=
  forallb (fun kv => well_formed (snd kv)) (content (snd e)).

(** A plain name of a directory: one that [Path] leaves as it is and that
    names a directory by itself. *)
Definition simple_name (s : string) : bool :=
  negb (String.eqb s "")
  && negb (String.eqb s ".")
  && negb (String.eqb s "..")
  && negb (has_char "/" s).

(** ** [get_content_for_topic] as a step of a run *)


(* ================================================================== *)
(** * Part II. Properties *)
(* ================================================================== *)

(** ** Strings *)

Module StrFacts.

Lemma append_assoc (a b c : string) : (a ++ b) ++ c = a ++ b ++ c.
Proof.
  induction a as [|x a IH]; simpl; [reflexivity | now rewrite IH].
Qed.

Lemma append_nil_r (a : string) : a ++ "" = a.
Proof.
  induction a as [|x a IH]; simpl; [reflexivity | now rewrite IH].
Qed.

Lemma startswith_spec (p s : string) :
  startswith p s = true <-> exists r, s = p ++ r.
Proof.
  revert s; induction p as [|a p IH]; intros s; simpl.
  - split; [intros _; now exists s | reflexivity].
  - destruct s as [|b s].
    + split; [discriminate | intros [r H]; discriminate].
    + rewrite andb_true_iff, Ascii.eqb_eq, IH. split.
      * intros [-> [r ->]]. now exists r.
      * intros [r H]. injection H as -> ->. split; [reflexivity | now exists r].
Qed.

Lemma contains_spec (needle hay : string) :
  contains needle hay = true <-> exists a b, hay = a ++ needle ++ b.
Proof.
  induction hay as [|c hay IH].
  - simpl. rewrite orb_false_r, startswith_spec. split.
    + intros [r H]. now exists "", r.
    + intros [a [b H]]. destruct a; simpl in H.
      * now exists b.
      * discriminate.
  - cbn [contains]. rewrite orb_true_iff, startswith_spec, IH. split.
    + intros [[r H] | [a [b H]]].
      * now exists "", r.
      * exists (String c a), b. simpl. now rewrite H.
    + intros [a [b H]]. destruct a as [|x a]; simpl in H.
      * left. now exists b.
      * right. injection H as _ H. now exists a, b.
Qed.

Lemma endswith_spec (p s : string) :
  endswith p s = true <-> exists a, s = a ++ p.
Proof.
  induction s as [|c s IH].
  - simpl. rewrite orb_false_r, String.eqb_eq. split.
    + intros ->. now exists "".
    + intros [a H]. destruct a; simpl in H; [now subst | discriminate].
  - cbn [endswith]. rewrite orb_true_iff, String.eqb_eq, IH. split.
    + intros [-> | [a ->]]; [now exists "" | now exists (String c a)].
    + intros [a H]. destruct a as [|x a]; simpl in H.
      * now left.
      * right. injection H as _ H. now exists a.
Qed.

(** Substrings through concatenation. *)
Lemma contains_refl (x : string) : contains x x = true.
Proof.
  apply contains_spec. exists "", "". exact (eq_sym (append_nil_r x)).
Qed.

Lemma contains_app_l (x a b : string) :
  contains x a = true -> contains x (a ++ b) = true.
Proof.
  rewrite !contains_spec. intros [p [q ->]].
  exists p, (q ++ b). now rewrite !append_assoc.
Qed.

Lemma contains_app_r (x a b : string) :
  contains x b = true -> contains x (a ++ b) = true.
Proof.
  rewrite !contains_spec. intros [p [q ->]].
  exists (a ++ p), q. now rewrite !append_assoc.
Qed.

Lemma contains_trans (x y z : string) :
  contains x y = true -> contains y z = true -> contains x z = true.
Proof.
  rewrite !contains_spec. intros [p [q ->]] [r [s ->]].
  exists (r ++ p), (q ++ s). now rewrite !append_assoc.
Qed.

Lemma text_cons (l : string) (ls : list string) :
  text (l :: ls) = l ++ nl ++ text ls.
Proof. reflexivity. Qed.

Lemma contains_text (l : string) (ls : list string) :
  In l ls -> contains l (text ls) = true.
Proof.
  induction ls as [|l' ls IH]; intros H; [destruct H|].
  rewrite text_cons. destruct H as [-> | H].
  - apply contains_app_l, contains_refl.
  - apply contains_app_r, contains_app_r, IH, H.
Qed.

Lemma endswith_text_last (l : string) (ls : list string) :
  endswith (l ++ nl) (text (ls ++ [l])) = true.
Proof.
  apply endswith_spec. induction ls as [|l' ls [a IH]].
  - exists "". cbn [app text fold_right]. reflexivity.
  - exists (l' ++ nl ++ a). cbn [app]. rewrite text_cons, IH.
    now rewrite !append_assoc.
Qed.

(** Splitting at a separator the fields do not hold. *)
Lemma split_not_nil (sep : ascii) (s : string) : split sep s <> [].
Proof.
  destruct s as [|c s]; simpl; [discriminate|].
  destruct (Ascii.eqb c sep); [discriminate|].
  destruct (split sep s); discriminate.
Qed.

Lemma split_field (sep : ascii) (a b : string) :
  has_char sep a = false ->
  split sep (a ++ String sep b) = a :: split sep b.
Proof.
  induction a as [|c a IH]; simpl; intros H.
  - now rewrite Ascii.eqb_refl.
  - apply orb_false_iff in H as [Hc Ha].
    rewrite Hc, (IH Ha). reflexivity.
Qed.

Lemma split_last (sep : ascii) (a : string) :
  has_char sep a = false -> split sep a = [a].
Proof.
  induction a as [|c a IH]; simpl; intros H; [reflexivity|].
  apply orb_false_iff in H as [Hc Ha].
  rewrite Hc, (IH Ha). reflexivity.
Qed.

End StrFacts.

(** ** Dictionaries *)

Module DictFacts.

Section Facts.
Variable V : Type.
Implicit Types (d : dict V) (k : string).

Lemma mem_spec d k :
  Dict.mem k d = true <-> In k (Dict.keys d).
Proof.
  unfold Dict.mem. rewrite existsb_exists. split.
  - intros [k' [Hin Heq]]. apply String.eqb_eq in Heq. now subst.
  - intros Hin. exists k. split; [assumption | apply String.eqb_refl].
Qed.

Lemma get_some_in_keys d k :
  In k (Dict.keys d) <-> exists v, Dict.get d k = Some v.
Proof.
  induction d as [|[k' v'] d IH]; simpl.
  - split; [intros [] | intros [v H]; discriminate].
  - destruct (String.eqb_spec k k') as [->|Hne].
    + split; [intros _; now exists v' | intros _; now left].
    + rewrite <- IH. split; [intros [H|H] | intros H].
      * now subst.
      * assumption.
      * now right.
Qed.

Lemma mem_get d k :
  Dict.mem k d = true <-> exists v, Dict.get d k = Some v.
Proof. rewrite mem_spec. apply get_some_in_keys. Qed.

Lemma mem_false_get d k :
  Dict.mem k d = false <-> Dict.get d k = None.
Proof.
  destruct (Dict.mem k d) eqn:E.
  - apply mem_get in E as [v E]. rewrite E. split; discriminate.
  - split; [intros _ | reflexivity].
    destruct (Dict.get d k) as [v|] eqn:G; [|reflexivity].
    assert (Dict.mem k d = true) as H by (apply mem_get; now exists v).
    congruence.
Qed.

Lemma get_in d k (v : V) : Dict.get d k = Some v -> In (k, v) d.
Proof.
  induction d as [|[k' v'] d IH]; simpl; [discriminate|].
  destruct (String.eqb_spec k k') as [->|Hne].
  - intros H. injection H as ->. now left.
  - intros H. right. now apply IH.
Qed.

Lemma getitem_ok d k (v : V) :
  Dict.get d k = Some v -> getitem d k = Ok v.
Proof. unfold getitem. now intros ->. Qed.

Lemma getitem_missing d k :
  Dict.get d k = None -> getitem d k = Raise (KeyError k).
Proof. unfold getitem. now intros ->. Qed.

Lemma get_set_same d k (v : V) : Dict.get (Dict.set d k v) k = Some v.
Proof.
  induction d as [|[k' v'] d IH]; simpl.
  - now rewrite String.eqb_refl.
  - destruct (String.eqb_spec k k') as [->|Hne]; simpl.
    + now rewrite String.eqb_refl.
    + destruct (String.eqb_spec k k'); [contradiction | exact IH].
Qed.

Lemma get_set_other d k k' (v : V) :
  k' <> k -> Dict.get (Dict.set d k v) k' = Dict.get d k'.
Proof.
  intros Hne. induction d as [|[k0 v0] d IH]; simpl.
  - destruct (String.eqb_spec k' k); [contradiction | reflexivity].
  - destruct (String.eqb_spec k k0) as [->|Hk]; simpl.
    + destruct (String.eqb_spec k' k0); [contradiction | reflexivity].
    + destruct (String.eqb_spec k' k0); [reflexivity | exact IH].
Qed.
End Facts.

End DictFacts.

(** ** Running a computation *)

Lemma run_bind (A B : Type) (c : M A) (k : A -> M B) (w : world) :
  bind c k w =
  match c w with
  | (Ok a, w') => k a w'
  | (Raise e, w') => (Raise e, w')
  end.
Proof. reflexivity. Qed.

Lemma run_bind_ok (A B : Type) (c : M A) (k : A -> M B) (w w' : world) (a : A) :
  c w = (Ok a, w') -> bind c k w = k a w'.
Proof. intros H. rewrite run_bind, H. reflexivity. Qed.

Arguments run_bind_ok [A B c] k [w w' a] _.

Lemma run_bind_raise (A B : Type) (c : M A) (k : A -> M B) (w w' : world) (e : exn) :
  c w = (Raise e, w') -> bind c k w = (Raise e, w').
Proof. intros H. rewrite run_bind, H. reflexivity. Qed.

Arguments run_bind_raise [A B c] k [w w' e] _.

Lemma run_lift (A : Type) (r : result A) (w : world) : lift r w = (r, w).
Proof. reflexivity. Qed.

(** ** The module [random] *)

Module RandomFacts.
Import Random.

Lemma randbelow_spec (n : nat) (w : world) :
  n <> 0 ->
  exists r w',
    randbelow n w = (Ok r, w') /\ r < n /\ fs w' = fs w.
Proof.
  intros Hn. eexists _, _. split; [reflexivity|]. split.
  - now apply Nat.mod_upper_bound.
  - reflexivity.
Qed.

Lemma randint_spec (a b : Z) (w : world) :
  (a <= b)%Z ->
  exists n w',
    randint a b w = (Ok n, w') /\ (a <= n <= b)%Z /\ fs w' = fs w.
Proof.
  intros Hab. unfold randint.
  destruct (Z.ltb_spec b a) as [H|_]; [lia|].
  destruct (randbelow_spec (n := Z.to_nat (b - a + 1)) w) as (r & w' & Hr & Hlt & Hfs);
    [lia|].
  exists (a + Z.of_nat r)%Z, w'. rewrite (run_bind_ok _ Hr).
  split; [reflexivity|]. split; [lia | assumption].
Qed.

Lemma choice_spec (A : Type) (seq : list A) (w : world) :
  seq <> [] ->
  exists x w', choice seq w = (Ok x, w') /\ In x seq /\ fs w' = fs w.
Proof.
  intros Hne. destruct seq as [|y seq]; [contradiction|].
  unfold choice.
  destruct (randbelow_spec (n := length (y :: seq)) w) as (i & w' & Hr & Hlt & Hfs);
    [discriminate|].
  rewrite (run_bind_ok _ Hr).
  destruct (nth_error (y :: seq) i) as [x|] eqn:E.
  - exists x, w'. split; [reflexivity|]. split; [|assumption].
    eapply nth_error_In, E.
  - apply nth_error_None in E. lia.
Qed.

Lemma remove_nth_length (A : Type) (l : list A) (i : nat) :
  i < length l -> length (remove_nth i l) = pred (length l).
Proof.
  revert i; induction l as [|x l IH]; intros [|i] H; simpl in *;
    try lia.
  rewrite IH by lia. lia.
Qed.

Lemma remove_nth_incl (A : Type) (l : list A) (i : nat) (x : A) :
  In x (remove_nth i l) -> In x l.
Proof.
  revert i; induction l as [|y l IH]; intros [|i] H; simpl in *;
    try assumption.
  - now right.
  - destruct H as [H|H]; [now left | right; eauto].
Qed.

Lemma remove_nth_NoDup (A : Type) (l : list A) (i : nat) (x : A) :
  NoDup l -> nth_error l i = Some x ->
  NoDup (remove_nth i l) /\ ~ In x (remove_nth i l).
Proof.
  revert i; induction l as [|y l IH]; intros i Hnd Hnth.
  - destruct i; discriminate.
  - inversion Hnd as [|? ? Hy Hl]; subst. destruct i as [|i]; simpl in *.
    + injection Hnth as ->. now split.
    + destruct (IH i Hl Hnth) as [Hnd' Hx]. split.
      * constructor; [|assumption].
        intros H. apply Hy. eapply remove_nth_incl, H.
      * intros [->|H]; [|contradiction].
        apply Hy. eapply nth_error_In, Hnth.
Qed.

Lemma sample_from_spec (A : Type) (k : nat) :
  forall (pool : list A) (w : world),
    k <= length pool ->
    exists picked w',
      sample_from pool k w = (Ok picked, w') /\
      length picked = k /\
      incl picked pool /\
      (NoDup pool -> NoDup picked) /\
      fs w' = fs w.
Proof.
  induction k as [|k IH]; intros pool w Hk.
  - exists [], w. repeat split; auto using NoDup_nil. intros x [].
  - cbn [sample_from].
    destruct (randbelow_spec (n := length pool) w) as (i & w1 & Hr & Hlt & Hfs1);
      [simpl in Hk; lia|].
    rewrite (run_bind_ok _ Hr).
    destruct (nth_error pool i) as [x|] eqn:E;
      [|apply nth_error_None in E; lia].
    destruct (IH (remove_nth i pool) w1) as (picked & w2 & Hs & Hlen & Hincl & Hnd & Hfs2).
    { rewrite remove_nth_length by assumption. lia. }
    exists (x :: picked), w2. rewrite (run_bind_ok _ Hs).
    split; [reflexivity|]. split; [simpl; now rewrite Hlen|].
    split; [|split].
    + intros y [<-|Hy]; [eapply nth_error_In, E|].
      eapply remove_nth_incl, Hincl, Hy.
    + intros Hpool. destruct (@remove_nth_NoDup A pool i x Hpool E) as [Hnd' Hx].
      constructor; [|auto]. intros Hin. apply Hx, Hincl, Hin.
    + congruence.
Qed.

Lemma sample_spec (A : Type) (population : list A) (k : Z) (w : world) :
  (0 <= k <= len population)%Z ->
  exists picked w',
    sample population k w = (Ok picked, w') /\
    len picked = k /\
    incl picked population /\
    (NoDup population -> NoDup picked) /\
    fs w' = fs w.
Proof.
  intros Hk. unfold sample.
  destruct (Z.ltb_spec k 0) as [H|_]; [lia|].
  destruct (Z.ltb_spec (len population) k) as [H|_]; [lia|].
  cbn [orb].
  destruct (sample_from_spec (k := Z.to_nat k) population w)
    as (picked & w' & Hs & Hlen & Hrest).
  { unfold len in Hk. lia. }
  exists picked, w'. split; [assumption|]. split; [|assumption].
  unfold len. lia.
Qed.

(** Every outcome the contract of [random] allows is the outcome of some
    draws, so a property of all worlds is a property of all runs. *)

Lemma randint_reaches (a b v : Z) (draws : list nat) (f : file_system) :
  (a <= v <= b)%Z ->
  randint a b (mkWorld (Z.to_nat (v - a) :: draws) f) = (Ok v, mkWorld draws f).
Proof.
  intros Hv. unfold randint.
  destruct (Z.ltb_spec b a) as [H|_]; [lia|].
  unfold randbelow, draw. rewrite !run_bind. cbn [entropy fs hd tl ret Monad_M].
  rewrite Nat.mod_small by lia.
  replace (a + Z.of_nat (Z.to_nat (v - a)))%Z with v by lia. reflexivity.
Qed.

Lemma choice_reaches (A : Type) (seq : list A) (i : nat) (x : A)
    (draws : list nat) (f : file_system) :
  nth_error seq i = Some x ->
  choice seq (mkWorld (i :: draws) f) = (Ok x, mkWorld draws f).
Proof.
  intros Hx. assert (i < length seq) as Hi.
  { apply nth_error_Some. congruence. }
  destruct seq as [|y seq]; [simpl in Hi; lia|].
  unfold choice, randbelow, draw. rewrite !run_bind.
  cbn [entropy fs hd tl ret Monad_M].
  rewrite Nat.mod_small by assumption. now rewrite Hx.
Qed.

Lemma remove_nth_keeps (A : Type) (l : list A) (i : nat) (x y : A) :
  nth_error l i = Some x -> In y l -> y <> x -> In y (remove_nth i l).
Proof.
  revert i; induction l as [|z l IH]; intros [|i] Hx Hy Hne; simpl in *;
    try discriminate.
  - injection Hx as ->. destruct Hy as [->|Hy]; [contradiction | assumption].
  - destruct Hy as [Hy|Hy]; [now left | right; eauto].
Qed.

Lemma sample_from_reaches (A : Type) (picked : list A) :
  forall pool : list A,
    NoDup picked -> incl picked pool ->
    exists used : list nat,
      forall (draws : list nat) (f : file_system),
        sample_from pool (length picked) (mkWorld (used ++ draws) f)
        = (Ok picked, mkWorld draws f).
Proof.
  induction picked as [|x picked IH]; intros pool Hnd Hincl.
  - exists []. reflexivity.
  - inversion Hnd as [|? ? Hx Hnd']; subst.
    destruct (In_nth_error pool x (Hincl x (or_introl eq_refl))) as [i Hi].
    assert (i < length pool) as Hlt by (apply nth_error_Some; congruence).
    destruct (IH (remove_nth i pool) Hnd') as [used Hused].
    { intros y Hy. eapply remove_nth_keeps; [exact Hi | |].
      - apply Hincl. now right.
      - intros ->. contradiction. }
    exists (i :: used). intros draws f. cbn [length sample_from app].
    unfold randbelow, draw. rewrite !run_bind.
    cbn [entropy fs hd tl ret Monad_M].
    rewrite Nat.mod_small by assumption. rewrite Hi, run_bind, Hused.
    reflexivity.
Qed.

End RandomFacts.

(** ** The configuration *)

Lemma DEVELOPERS_length : len DEVELOPERS = 10%Z.
Proof. reflexivity. Qed.

Lemma DEVELOPERS_NoDup : NoDup DEVELOPERS.
Proof.
  unfold DEVELOPERS.
  repeat (constructor; [simpl; intuition discriminate|]). constructor.
Qed.

Lemma DEVELOPERS_plain : forallb plain DEVELOPERS = true.
Proof. reflexivity. Qed.

Lemma LANGUAGE_CONTENT_keys :
  Dict.keys LANGUAGE_CONTENT = ["golang"; "python"; "javascript"; "react"].
Proof. reflexivity. Qed.

Lemma LANGUAGE_CONTENT_plain : forallb plain_entry LANGUAGE_CONTENT = true.
Proof. vm_compute. reflexivity. Qed.

Lemma catalog_language (language : string) :
  In language (Dict.keys LANGUAGE_CONTENT) ->
  exists spec,
    Dict.get LANGUAGE_CONTENT language = Some spec /\
    plain language = true /\
    topics spec <> [] /\
    forallb plain (topics spec) = true.
Proof.
  intros Hin. apply DictFacts.get_some_in_keys in Hin as [spec Hget].
  exists spec. split; [assumption|].
  pose proof (DictFacts.get_in _ _ Hget) as Hentry.
  pose proof LANGUAGE_CONTENT_plain as Hall.
  rewrite forallb_forall in Hall. specialize (Hall _ Hentry).
  unfold plain_entry in Hall. cbn [fst snd] in Hall.
  apply andb_true_iff in Hall as [Hall Htopics].
  apply andb_true_iff in Hall as [Hlang Hne].
  repeat split; try assumption.
  intros E. rewrite E in Hne. discriminate.
Qed.

Lemma declared_plain (language topic : string) :
  declared language topic -> plain language = true /\ plain topic = true.
Proof.
  intros (spec & Hget & Hin).
  assert (In language (Dict.keys LANGUAGE_CONTENT)) as Hkey.
  { apply DictFacts.get_some_in_keys. now exists spec. }
  destruct (catalog_language Hkey) as (spec' & Hget' & Hlang & _ & Htopics).
  rewrite Hget in Hget'. injection Hget' as <-.
  split; [assumption|].
  rewrite forallb_forall in Htopics. now apply Htopics.
Qed.

Lemma declared_language (language topic : string) :
  declared language topic -> In language (Dict.keys LANGUAGE_CONTENT).
Proof.
  intros (spec & Hget & _). apply DictFacts.get_some_in_keys. now exists spec.
Qed.

(** ** Looking up content *)

Lemma catalog_content_ok (language : string) (spec : LanguageSpec) :
  Dict.get LANGUAGE_CONTENT language = Some spec ->
  catalog_content language = Ok (content spec).
Proof.
  intros H. unfold catalog_content. now rewrite (DictFacts.getitem_ok _ _ H).
Qed.

Lemma catalog_topics_ok (language : string) (spec : LanguageSpec) :
  Dict.get LANGUAGE_CONTENT language = Some spec ->
  catalog_topics language = Ok (topics spec).
Proof.
  intros H. unfold catalog_topics. now rewrite (DictFacts.getitem_ok _ _ H).
Qed.

Lemma catalog_topics_missing (language : string) :
  Dict.get LANGUAGE_CONTENT language = None ->
  catalog_topics language = Raise (KeyError language).
Proof.
  intros H. unfold catalog_topics.
  now rewrite (DictFacts.getitem_missing _ _ H).
Qed.

Lemma get_content_for_topic_eq (language topic : string) :
  get_content_for_topic language topic = Ok (content_for language topic).
Proof.
  unfold get_content_for_topic, content_for, catalogued.
  destruct (Dict.mem language LANGUAGE_CONTENT) eqn:Hlang.
  - apply DictFacts.mem_get in Hlang as [spec Hspec].
    rewrite Hspec, (catalog_content_ok _ Hspec). cbn [bind ret Monad_result].
    destruct (Dict.mem topic (content spec)) eqn:Htopic.
    + apply DictFacts.mem_get in Htopic as [body Hbody].
      rewrite Hbody. apply DictFacts.getitem_ok, Hbody.
    + apply DictFacts.mem_false_get in Htopic. now rewrite Htopic.
  - apply DictFacts.mem_false_get in Hlang. now rewrite Hlang.
Qed.

(** ** File names *)

Lemma plain_has_char (s : string) : plain s = true -> has_char "." s = false.
Proof. unfold plain. now destruct (has_char "." s). Qed.

Lemma components_file_name (developer language topic : string) :
  plain developer = true -> plain language = true -> plain topic = true ->
  components (file_name developer language topic)
  = [developer; language; topic; "md"].
Proof.
  intros Hd Hl Ht. unfold components, file_name.
  change (developer ++ "." ++ language ++ "." ++ topic ++ ".md")
    with (developer ++ String "." (language ++ String "." (topic ++ String "." "md"))).
  rewrite !StrFacts.split_field by now apply plain_has_char.
  reflexivity.
Qed.

Lemma components_pick_file (p : pick) :
  valid_pick p ->
  components (pick_file p)
  = [pick_developer p; snd (fst p); snd p; "md"].
Proof.
  destruct p as [[developer language] topic]. intros [Hdev Hdecl].
  destruct (declared_plain Hdecl) as [Hl Ht].
  apply components_file_name; try assumption.
  pose proof DEVELOPERS_plain as H. rewrite forallb_forall in H. now apply H.
Qed.

Lemma developer_of_pick_file (p : pick) :
  valid_pick p -> developer_of (pick_file p) = pick_developer p.
Proof.
  intros H. unfold developer_of. now rewrite (components_pick_file _ H).
Qed.

Lemma map_developer_of (ps : list pick) :
  Forall valid_pick ps ->
  map developer_of (map pick_file ps) = map pick_developer ps.
Proof.
  induction 1 as [|p ps Hp _ IH]; simpl; [reflexivity|].
  now rewrite IH, (developer_of_pick_file _ Hp).
Qed.

Lemma pick_files_NoDup (ps : list pick) :
  Forall valid_pick ps -> NoDup (map pick_developer ps) ->
  NoDup (map pick_file ps).
Proof.
  intros Hvalid Hnd. rewrite <- (map_developer_of Hvalid) in Hnd.
  eapply NoDup_map_inv, Hnd.
Qed.

(** ** The files of a directory *)

Lemma write_picks_other (ps : list pick) :
  forall (entries : directory) (f : string),
    ~ In f (map pick_file ps) ->
    Dict.get (write_picks entries ps) f = Dict.get entries f.
Proof.
  induction ps as [|p ps IH]; intros entries f Hf; [reflexivity|].
  unfold write_picks in *. cbn [fold_left].
  rewrite IH by (intros H; apply Hf; now right).
  apply DictFacts.get_set_other. intros ->. apply Hf. now left.
Qed.

Lemma write_picks_written (ps : list pick) :
  forall (entries : directory) (p : pick),
    NoDup (map pick_file ps) -> In p ps ->
    Dict.get (write_picks entries ps) (pick_file p) = Some (pick_body p).
Proof.
  induction ps as [|p0 ps IH]; intros entries p Hnd Hin; [destruct Hin|].
  cbn [map] in Hnd. inversion Hnd as [|? ? Hfresh Hrest]; subst.
  change (write_picks entries (p0 :: ps))
    with (write_picks (Dict.set entries (pick_file p0) (pick_body p0)) ps).
  destruct Hin as [->|Hin].
  - rewrite write_picks_other by assumption. apply DictFacts.get_set_same.
  - now apply IH.
Qed.

(** ** The loop *)

Lemma write_file_ok (directory_name filename body : string) (w : world)
    (entries : directory) :
  Dict.get (fs w) directory_name = Some entries ->
  exists w',
    write_file directory_name filename body w = (Ok tt, w') /\
    Dict.get (fs w') directory_name = Some (Dict.set entries filename body).
Proof.
  intros H. unfold write_file. rewrite H. eexists. split; [reflexivity|].
  cbn [fs]. apply DictFacts.get_set_same.
Qed.

Lemma create_files_loop_spec (directory_name : string) :
  forall (selected_developers files_created : list string) (w : world)
         (entries : directory),
    Dict.get (fs w) directory_name = Some entries ->
    incl selected_developers DEVELOPERS ->
    exists (ps : list pick) (w' : world),
      create_files_loop directory_name selected_developers files_created w
      = (Ok (files_created ++ map pick_file ps)%list, w') /\
      map pick_developer ps = selected_developers /\
      Forall valid_pick ps /\
      Dict.get (fs w') directory_name = Some (write_picks entries ps).
Proof.
  induction selected_developers as [|developer remaining IH];
    intros files_created w entries Hdir Hdevs.
  - exists [], w. cbn [create_files_loop map]. rewrite app_nil_r.
    repeat split; [constructor | assumption].
  - cbn [create_files_loop].
    (* the language *)
    destruct (RandomFacts.choice_spec (seq := Dict.keys LANGUAGE_CONTENT) w)
      as (language & w1 & Hlang & Hkey & Hfs1).
    { rewrite LANGUAGE_CONTENT_keys. discriminate. }
    rewrite (run_bind_ok _ Hlang).
    destruct (catalog_language Hkey) as (spec & Hspec & _ & Htopics & _).
    rewrite (catalog_topics_ok _ Hspec), run_bind, run_lift.
    (* the topic *)
    destruct (RandomFacts.choice_spec (seq := topics spec) w1 Htopics)
      as (topic & w2 & Htopic & Hin & Hfs2).
    rewrite (run_bind_ok _ Htopic).
    (* the content and the file *)
    rewrite get_content_for_topic_eq, run_bind, run_lift.
    destruct (@write_file_ok directory_name
                (file_name developer language topic)
                (content_for language topic) w2 entries)
      as (w3 & Hwrite & Hdir3).
    { now rewrite Hfs2, Hfs1. }
    rewrite (run_bind_ok _ Hwrite).
    destruct (IH (files_created ++ [file_name developer language topic])%list
                 w3 (Dict.set entries (file_name developer language topic)
                              (content_for language topic)) Hdir3)
      as (ps & w' & Hrun & Hmap & Hvalid & Hdir').
    { intros d Hd. apply Hdevs. now right. }
    exists ((developer, language, topic) :: ps), w'.
    rewrite Hrun. cbn [map pick_file pick_developer fst].
    rewrite <- app_assoc. split; [reflexivity|].
    split; [now rewrite Hmap|]. split; [|exact Hdir'].
    constructor; [|assumption].
    split; [apply Hdevs; now left | now exists spec].
Qed.

Lemma create_files_for_directory_spec (directory_name : string) (w : world)
    (entries : directory) :
  Dict.get (fs w) directory_name = Some entries ->
  exists (num_files : Z) (ps : list pick) (w' : world),
    create_files_for_directory directory_name w = (Ok (map pick_file ps), w') /\
    (3 <= num_files <= 6)%Z /\
    len ps = Z.min num_files (len DEVELOPERS) /\
    NoDup (map pick_developer ps) /\
    Forall valid_pick ps /\
    Dict.get (fs w') directory_name = Some (write_picks entries ps).
Proof.
  intros Hdir. unfold create_files_for_directory.
  destruct (RandomFacts.randint_spec (a := 3) (b := 6) w)
    as (num_files & w1 & Hnum & Hrange & Hfs1); [lia|].
  rewrite (run_bind_ok _ Hnum).
  destruct (@RandomFacts.sample_spec string DEVELOPERS
              (Z.min num_files (len DEVELOPERS)) w1)
    as (selected & w2 & Hsel & Hlen & Hincl & Hnd & Hfs2).
  { rewrite DEVELOPERS_length. lia. }
  rewrite (run_bind_ok _ Hsel).
  destruct (@create_files_loop_spec directory_name selected [] w2 entries)
    as (ps & w' & Hrun & Hmap & Hvalid & Hdir').
  { now rewrite Hfs2, Hfs1. }
  { assumption. }
  exists num_files, ps, w'. rewrite Hrun. cbn [app].
  split; [reflexivity|]. split; [assumption|].
  split; [|split; [|split; assumption]].
  - rewrite <- Hlen, <- Hmap. unfold len. now rewrite length_map.
  - rewrite Hmap. apply Hnd, DEVELOPERS_NoDup.
Qed.


(** ** The catalog and the fallback template *)

Lemma LANGUAGE_CONTENT_marker_free :
  forallb marker_free LANGUAGE_CONTENT = true.
Proof. vm_compute. reflexivity. Qed.

Lemma catalogued_marker_free (language topic body : string) :
  catalogued language topic = Some body ->
  contains placeholder_marker body = false.
Proof.
  unfold catalogued. destruct (Dict.get LANGUAGE_CONTENT language) as [spec|] eqn:Hspec;
    [|discriminate].
  intros Hbody.
  pose proof (DictFacts.get_in _ _ Hspec) as Hentry.
  pose proof (DictFacts.get_in _ _ Hbody) as Hkv.
  pose proof LANGUAGE_CONTENT_marker_free as Hall.
  rewrite forallb_forall in Hall. specialize (Hall _ Hentry).
  unfold marker_free in Hall. cbn [snd] in Hall.
  rewrite forallb_forall in Hall. specialize (Hall _ Hkv).
  cbn [snd] in Hall. now apply negb_true_iff in Hall.
Qed.

Lemma content_for_fallback (language topic : string) :
  catalogued language topic = None ->
  content_for language topic = fallback_content language topic.
Proof. unfold content_for. now intros ->. Qed.

Lemma contains_text_nth (n : nat) (l : string) (ls : list string) :
  nth_error ls n = Some l -> contains l (text ls) = true.
Proof. intros H. eapply StrFacts.contains_text, nth_error_In, H. Qed.

Lemma fallback_contains_language (language topic : string) :
  contains language (fallback_content language topic) = true.
Proof.
  eapply StrFacts.contains_trans;
    [|apply (@contains_text_nth 13); reflexivity].
  apply StrFacts.contains_app_r, StrFacts.contains_refl.
Qed.

Lemma fallback_contains_title (language topic : string) :
  contains (title language) (fallback_content language topic) = true.
Proof.
  eapply StrFacts.contains_trans;
    [|apply (@contains_text_nth 0); reflexivity].
  apply StrFacts.contains_app_r, StrFacts.contains_app_l, StrFacts.contains_refl.
Qed.

Lemma fallback_contains_topic (language topic : string) :
  contains (human_readable topic) (fallback_content language topic) = true.
Proof.
  eapply StrFacts.contains_trans;
    [|apply (@contains_text_nth 0); reflexivity].
  unfold human_readable.
  do 3 apply StrFacts.contains_app_r.
  apply StrFacts.contains_app_l, StrFacts.contains_refl.
Qed.

Lemma fallback_contains_marker (language topic : string) :
  contains placeholder_marker (fallback_content language topic) = true.
Proof.
  eapply StrFacts.contains_trans;
    [|apply (@contains_text_nth 33); reflexivity].
  apply StrFacts.contains_app_l. reflexivity.
Qed.

(** C1. For every language and every topic, catalogued or not,
    [get_content_for_topic] raises nothing and returns a string: the
    catalogued body when the catalog holds the pair, the fallback template
    when it does not. *)
Theorem get_content_for_topic_total (language topic : string) :
  get_content_for_topic language topic
  = Ok (match catalogued language topic with
        | Some body => body
        | None => fallback_content language topic
        end).
Proof. apply get_content_for_topic_eq. Qed.

(** C2. For every pair the catalog holds, [get_content_for_topic] returns
    the catalogued body itself, and that body does not hold the placeholder
    marker; the body of golang, code-styling starts with
    [# Golang Code Styling Guidelines]. *)
Theorem catalogued_content_returned :
  (forall language topic body : string,
      catalogued language topic = Some body ->
      get_content_for_topic language topic = Ok body /\
      contains placeholder_marker body = false)
  /\
  (exists body : string,
      get_content_for_topic "golang" "code-styling" = Ok body /\
      startswith "# Golang Code Styling Guidelines" body = true).
Proof.
  split.
  - intros language topic body H. split.
    + rewrite get_content_for_topic_eq. unfold content_for. now rewrite H.
    + exact (catalogued_marker_free _ _ H).
  - exists content_golang_code_styling. split; reflexivity.
Qed.

Lemma catalogued_content_returned_witness :
  catalogued "python" "packaging" = Some content_python_packaging /\
  get_content_for_topic "python" "packaging" = Ok content_python_packaging /\
  contains placeholder_marker content_python_packaging = false.
Proof.
  split; [reflexivity|].
  apply (proj1 catalogued_content_returned "python" "packaging").
  reflexivity.
Defined.

(** C3. For every pair the catalog does not hold, [get_content_for_topic]
    returns a string that holds the language name (as given and
    title-cased), the topic with ['-'] turned into spaces and title-cased,
    and the placeholder marker; for golang, nonexistent-topic the string
    holds [Golang], [Nonexistent Topic] and [template document]. *)
Theorem fallback_mentions_language_and_topic :
  (forall language topic : string,
      catalogued language topic = None ->
      exists body : string,
        get_content_for_topic language topic = Ok body /\
        contains language body = true /\
        contains (title language) body = true /\
        contains (title (replace "-" " " topic)) body = true /\
        contains placeholder_marker body = true)
  /\
  (exists body : string,
      get_content_for_topic "golang" "nonexistent-topic" = Ok body /\
      contains "Golang" body = true /\
      contains "Nonexistent Topic" body = true /\
      contains "template document" body = true).
Proof.
  split.
  - intros language topic H. exists (fallback_content language topic).
    rewrite get_content_for_topic_eq, (content_for_fallback _ _ H).
    split; [reflexivity|].
    split; [apply fallback_contains_language|].
    split; [apply fallback_contains_title|].
    split; [apply fallback_contains_topic | apply fallback_contains_marker].
  - exists (fallback_content "golang" "nonexistent-topic").
    repeat split; vm_compute; reflexivity.
Qed.

Lemma fallback_mentions_language_and_topic_witness :
  catalogued "rust" "memory-safety" = None /\
  exists body : string,
    get_content_for_topic "rust" "memory-safety" = Ok body /\
    contains "rust" body = true /\
    contains (title "rust") body = true /\
    contains (title (replace "-" " " "memory-safety")) body = true /\
    contains placeholder_marker body = true.
Proof.
  split; [reflexivity|].
  apply (proj1 fallback_mentions_language_and_topic "rust" "memory-safety").
  reflexivity.
Defined.

Lemma text_line (ls : list string) :
  forall (n : nat) (l : string),
    nth_error ls (S n) = Some l ->
    exists a : string,
      text ls = a ++ (nl ++ l ++ nl) ++ text (skipn (S (S n)) ls).
Proof.
  induction ls as [|l0 ls IH]; intros n l H; [discriminate|].
  destruct n as [|n].
  - destruct ls as [|l1 ls]; [discriminate|].
    injection H as ->. exists l0.
    cbn [skipn]. rewrite !StrFacts.text_cons, !StrFacts.append_assoc.
    reflexivity.
  - destruct (IH n l H) as [a Ha]. exists (l0 ++ nl ++ a).
    rewrite StrFacts.text_cons, Ha.
    change (skipn (S (S (S n))) (l0 :: ls)) with (skipn (S (S n)) ls).
    rewrite !StrFacts.append_assoc. reflexivity.
Qed.

Lemma fallback_heading (language topic : string) :
  startswith ("# " ++ title language ++ " " ++ human_readable topic
              ++ " Guidelines" ++ nl)
             (fallback_content language topic) = true.
Proof.
  apply StrFacts.startswith_spec. unfold fallback_content.
  rewrite StrFacts.text_cons. eexists.
  rewrite !StrFacts.append_assoc. reflexivity.
Qed.

Lemma fallback_overview (language topic : string) :
  contains (nl ++ "This document contains best practices and guidelines for "
            ++ replace "-" " " topic ++ " in " ++ title language ++ "." ++ nl)
           (fallback_content language topic) = true.
Proof.
  apply StrFacts.contains_spec. unfold fallback_content.
  match goal with |- context [text ?ls] =>
    destruct (@text_line ls 2 _ eq_refl) as [a Ha]; rewrite Ha
  end.
  eexists a, _. rewrite !StrFacts.append_assoc. reflexivity.
Qed.

Lemma fallback_note (language topic : string) :
  endswith (nl ++ "*This is a template document. Please customize with specific "
            ++ language ++ " " ++ topic ++ " guidelines.*" ++ nl)
           (fallback_content language topic) = true.
Proof.
  apply StrFacts.endswith_spec. unfold fallback_content.
  match goal with |- context [text ?ls] =>
    destruct (@text_line ls 32 _ eq_refl) as [a Ha]; rewrite Ha
  end.
  exists a. cbn [skipn text fold_right].
  rewrite StrFacts.append_nil_r, !StrFacts.append_assoc. reflexivity.
Qed.

(** C4, as stated, fails: the title-cased topic stands in the heading only.
    For golang, nonexistent-topic no line other than a heading holds
    [Nonexistent Topic]; the sentence of the overview reads
    [nonexistent topic]. *)
Lemma fallback_sentence_not_title_cased :
  catalogued "golang" "nonexistent-topic" = None /\
  human_readable "nonexistent-topic" = "Nonexistent Topic" /\
  ~ (exists body : string,
        get_content_for_topic "golang" "nonexistent-topic" = Ok body /\
        in_heading (human_readable "nonexistent-topic") body = true /\
        in_sentence (human_readable "nonexistent-topic") body = true /\
        contains placeholder_marker body = true).
Proof.
  split; [reflexivity|]. split; [reflexivity|].
  intros (body & Hget & _ & Hsentence & _).
  rewrite get_content_for_topic_eq in Hget. injection Hget as <-.
  vm_compute in Hsentence. discriminate.
Qed.

(** C4, amended. For every pair the catalog does not hold, the body
    returned starts with the heading [# Language Topic Guidelines], where
    the topic is in its human-readable form (['-'] as spaces, title-cased);
    the sentence of its overview, a line of its own, holds the topic with
    ['-'] as spaces but not title-cased; and the body ends with the note
    that it is a template document. *)
Theorem fallback_embeds_topic (language topic : string) :
  catalogued language topic = None ->
  exists body : string,
    get_content_for_topic language topic = Ok body /\
    startswith ("# " ++ title language ++ " " ++ human_readable topic
                ++ " Guidelines" ++ nl) body = true /\
    contains (nl ++ "This document contains best practices and guidelines for "
              ++ replace "-" " " topic ++ " in " ++ title language ++ "." ++ nl)
             body = true /\
    endswith (nl ++ "*This is a template document. Please customize with specific "
              ++ language ++ " " ++ topic ++ " guidelines.*" ++ nl)
             body = true.
Proof.
  intros H. exists (fallback_content language topic).
  rewrite get_content_for_topic_eq, (content_for_fallback _ _ H).
  split; [reflexivity|].
  split; [apply fallback_heading|].
  split; [apply fallback_overview | apply fallback_note].
Qed.

Lemma fallback_embeds_topic_witness :
  catalogued "golang" "nonexistent-topic" = None /\
  exists body : string,
    get_content_for_topic "golang" "nonexistent-topic" = Ok body /\
    startswith ("# Golang Nonexistent Topic Guidelines" ++ nl) body = true /\
    contains (nl ++ "This document contains best practices and guidelines for nonexistent topic in Golang." ++ nl)
             body = true /\
    endswith (nl ++ "*This is a template document. Please customize with specific golang nonexistent-topic guidelines.*" ++ nl)
             body = true.
Proof.
  split; [reflexivity|].
  apply (fallback_embeds_topic "golang" "nonexistent-topic").
  reflexivity.
Defined.

(** ** The files of a run *)

(** C5. In a directory that exists, [create_files_for_directory] returns;
    the number of names it returns is a count drawn in [3, 6] and clamped
    to the size of the developer pool; the developer components of the
    names are pairwise distinct; and the files of the directory that the
    run has written are those it returns, each present afterwards, every
    other file as before. *)
Theorem files_per_directory (directory_name : string) (w : world)
    (before : directory) :
  Dict.get (fs w) directory_name = Some before ->
  exists (files : list string) (w' : world) (num_files : Z)
         (after : directory),
    create_files_for_directory directory_name w = (Ok files, w') /\
    (3 <= num_files <= 6)%Z /\
    len files = Z.min num_files (len DEVELOPERS) /\
    (3 <= len files <= 6)%Z /\
    NoDup (map developer_of files) /\
    Dict.get (fs w') directory_name = Some after /\
    (forall f : string,
        In f files -> exists body : string, Dict.get after f = Some body) /\
    (forall f : string,
        ~ In f files -> Dict.get after f = Dict.get before f).
Proof.
  intros Hdir.
  destruct (create_files_for_directory_spec _ _ Hdir)
    as (num_files & ps & w' & Hrun & Hrange & Hlen & Hnd & Hvalid & Hafter).
  exists (map pick_file ps), w', num_files, (write_picks before ps).
  assert (len (map pick_file ps) = Z.min num_files (len DEVELOPERS)) as Hlen'.
  { rewrite <- Hlen. unfold len. now rewrite length_map. }
  split; [assumption|]. split; [assumption|]. split; [assumption|].
  split; [rewrite Hlen', DEVELOPERS_length; lia|].
  split; [now rewrite (map_developer_of Hvalid)|].
  split; [assumption|]. split.
  - intros f Hf. apply in_map_iff in Hf as (p & <- & Hp).
    exists (pick_body p).
    apply write_picks_written; [now apply pick_files_NoDup | assumption].
  - intros f Hf. now apply write_picks_other.
Qed.

Lemma files_per_directory_witness :
  Dict.get (fs example_world) "eyes" = Some [] /\
  exists (files : list string) (w' : world) (num_files : Z)
         (after : directory),
    create_files_for_directory "eyes" example_world = (Ok files, w') /\
    (3 <= num_files <= 6)%Z /\
    len files = Z.min num_files (len DEVELOPERS) /\
    (3 <= len files <= 6)%Z /\
    NoDup (map developer_of files) /\
    Dict.get (fs w') "eyes" = Some after /\
    (forall f : string,
        In f files -> exists body : string, Dict.get after f = Some body) /\
    (forall f : string, ~ In f files -> Dict.get after f = Dict.get [] f).
Proof.
  split; [reflexivity|].
  apply (@files_per_directory "eyes" example_world []). reflexivity.
Defined.

(** C6. Every name [create_files_for_directory] returns is the name
    [developer.language.topic.md] of a developer of the pool and a language
    and topic of the catalog, and splitting it at ['.'] gives back exactly
    that developer, language and topic, and [md]. *)
Theorem file_name_components (directory_name : string) (w : world)
    (before : directory) :
  Dict.get (fs w) directory_name = Some before ->
  exists (files : list string) (w' : world),
    create_files_for_directory directory_name w = (Ok files, w') /\
    Forall (fun filename : string =>
              exists developer language topic : string,
                filename = file_name developer language topic /\
                In developer DEVELOPERS /\
                declared language topic /\
                split "." filename = [developer; language; topic; "md"])
           files.
Proof.
  intros Hdir.
  destruct (create_files_for_directory_spec _ _ Hdir)
    as (num_files & ps & w' & Hrun & _ & _ & _ & Hvalid & _).
  exists (map pick_file ps), w'. split; [assumption|].
  apply Forall_map. eapply Forall_impl; [|exact Hvalid].
  intros [[developer language] topic] Hp.
  exists developer, language, topic. destruct Hp as [Hdev Hdecl].
  repeat split; try assumption.
  apply (@components_pick_file (developer, language, topic)). now split.
Qed.

Lemma file_name_components_witness :
  Dict.get (fs example_world) "eyes" = Some [] /\
  exists (files : list string) (w' : world),
    create_files_for_directory "eyes" example_world = (Ok files, w') /\
    Forall (fun filename : string =>
              exists developer language topic : string,
                filename = file_name developer language topic /\
                In developer DEVELOPERS /\
                declared language topic /\
                split "." filename = [developer; language; topic; "md"])
           files.
Proof.
  split; [reflexivity|].
  apply (@file_name_components "eyes" example_world []). reflexivity.
Defined.

(** C7. Looking up the topics of a language, [LANGUAGE_CONTENT[language]["topics"]],
    raises [KeyError language] when the catalog does not hold the language,
    and the caller that goes on with the topics raises it too, the world
    left as it was; when the catalog holds the language, the lookup returns
    the topics declared for it, in their order. *)
Theorem catalog_topics_unknown_language (language : string) :
  (Dict.mem language LANGUAGE_CONTENT = false ->
   catalog_topics language = Raise (KeyError language) /\
   forall (A : Type) (k : list string -> M A) (w : world),
     (available_topics <- lift (catalog_topics language) ;; k available_topics) w
     = (Raise (KeyError language), w))
  /\
  (forall spec : LanguageSpec,
      Dict.get LANGUAGE_CONTENT language = Some spec ->
      catalog_topics language = Ok (topics spec)).
Proof.
  split.
  - intros H. apply DictFacts.mem_false_get in H.
    pose proof (catalog_topics_missing _ H) as E. split; [assumption|].
    intros A k w. now rewrite run_bind, run_lift, E.
  - apply catalog_topics_ok.
Qed.

Lemma catalog_topics_unknown_language_witness :
  Dict.mem "rust" LANGUAGE_CONTENT = false /\
  catalog_topics "rust" = Raise (KeyError "rust") /\
  catalog_topics "react"
  = Ok ["components"; "hooks"; "state-management"; "performance"; "testing"].
Proof.
  split; [reflexivity|]. split.
  - apply (proj1 (catalog_topics_unknown_language "rust")). reflexivity.
  - apply (proj2 (catalog_topics_unknown_language "react")
                  (mkLanguageSpec
                     ["components"; "hooks"; "state-management"; "performance";
                      "testing"]
                     [("components", content_react_components);
                      ("hooks", content_react_hooks)])).
    reflexivity.
Defined.


(** The draws do decide what [create_files_for_directory] returns: the
    property below is not one that every step of a run has. *)
Lemma create_files_for_directory_depends_on_draws :
  exists w1 w2 : world,
    fs w1 = fs w2 /\
    fst (create_files_for_directory "eyes" w1)
    <> fst (create_files_for_directory "eyes" w2).
Proof.
  exists (mkWorld [0] [("eyes", [])]), (mkWorld [1] [("eyes", [])]).
  split; [reflexivity|]. vm_compute. discriminate.
Qed.


(** C10. Every name [create_files_for_directory] returns has, as its
    language component, one of the four keys of the catalog and, as its
    topic component, a member of the topics declared for that language. *)
Theorem files_within_catalog (directory_name : string) (w : world)
    (before : directory) :
  Dict.get (fs w) directory_name = Some before ->
  exists (files : list string) (w' : world),
    create_files_for_directory directory_name w = (Ok files, w') /\
    Forall (fun filename : string =>
              exists (developer language topic : string)
                     (declared_topics : list string),
                split "." filename = [developer; language; topic; "md"] /\
                In language ["golang"; "python"; "javascript"; "react"] /\
                catalog_topics language = Ok declared_topics /\
                In topic declared_topics)
           files.
Proof.
  intros Hdir.
  destruct (create_files_for_directory_spec _ _ Hdir)
    as (num_files & ps & w' & Hrun & _ & _ & _ & Hvalid & _).
  exists (map pick_file ps), w'. split; [assumption|].
  apply Forall_map. eapply Forall_impl; [|exact Hvalid].
  intros [[developer language] topic] Hp.
  pose proof (components_pick_file _ Hp) as Hsplit.
  destruct Hp as [Hdev Hdecl].
  pose proof (declared_language Hdecl) as Hkey.
  rewrite LANGUAGE_CONTENT_keys in Hkey.
  destruct Hdecl as (spec & Hspec & Htopic).
  exists developer, language, topic, (topics spec).
  split; [exact Hsplit|]. split; [assumption|].
  split; [now apply catalog_topics_ok | assumption].
Qed.

Lemma files_within_catalog_witness :
  Dict.get (fs example_world) "eyes" = Some [] /\
  exists (files : list string) (w' : world),
    create_files_for_directory "eyes" example_world = (Ok files, w') /\
    Forall (fun filename : string =>
              exists (developer language topic : string)
                     (declared_topics : list string),
                split "." filename = [developer; language; topic; "md"] /\
                In language ["golang"; "python"; "javascript"; "react"] /\
                catalog_topics language = Ok declared_topics /\
                In topic declared_topics)
           files.
Proof.
  split; [reflexivity|].
  apply (@files_within_catalog "eyes" example_world []). reflexivity.
Defined.

(** ** Declared topics without content *)

Lemma split_app (sep : ascii) (a b : string) :
  split sep (a ++ String sep b) = (split sep a ++ split sep b)%list.
Proof.
  induction a as [|c a IH]; simpl.
  - now rewrite Ascii.eqb_refl.
  - destruct (Ascii.eqb c sep); rewrite IH; [reflexivity|].
    destruct (split sep a) as [|field fields] eqn:E; [|reflexivity].
    now apply StrFacts.split_not_nil in E.
Qed.

Lemma components_file_name_any (developer language topic : string) :
  plain language = true -> plain topic = true ->
  components (file_name developer language topic)
  = (split "." developer ++ [language; topic; "md"])%list.
Proof.
  intros Hl Ht. unfold components, file_name.
  change (developer ++ "." ++ language ++ "." ++ topic ++ ".md")
    with (developer ++ String "." (language ++ String "." (topic ++ String "." "md"))).
  rewrite split_app.
  rewrite !StrFacts.split_field by now apply plain_has_char.
  reflexivity.
Qed.

Lemma last_three (xs : list string) (a b c d' a' b' c' : string) :
  (xs ++ [a; b; c])%list = [d'; a'; b'; c'] -> a = a' /\ b = b'.
Proof.
  destruct xs as [|x [|y [|z [|u xs]]]]; cbn [app]; intros H;
    try discriminate; try (injection H; intros; subst; now split).
  injection H as _ _ _ _ H. destruct xs; discriminate.
Qed.

Lemma declared_without_content_spec (language topic : string) :
  In (language, topic) declared_without_content ->
  declared language topic /\ catalogued language topic = None.
Proof.
  unfold declared_without_content. cbn [In].
  intros H.
  repeat (destruct H as [H|H];
          [injection H as <- <-; split;
           [eexists; split; [reflexivity | cbn [topics In]; tauto]
           | reflexivity]|]).
  destruct H.
Qed.

(** C9. The catalog declares six topics it holds no body for: async,
    modules and performance of javascript, and state-management,
    performance and testing of react.  For each of them
    [get_content_for_topic] returns the fallback template, which holds the
    placeholder marker; a file that a run writes for one of them holds that
    template; and there is a run that writes such a file. *)
Theorem declared_topics_without_content :
  Forall (fun pair : string * string =>
            let (language, topic) := pair in
            declared language topic /\
            catalogued language topic = None /\
            get_content_for_topic language topic
            = Ok (fallback_content language topic) /\
            contains placeholder_marker (fallback_content language topic)
            = true)
         declared_without_content
  /\
  (forall (directory_name : string) (w : world) (before : directory),
      Dict.get (fs w) directory_name = Some before ->
      exists (files : list string) (w' : world) (after : directory),
        create_files_for_directory directory_name w = (Ok files, w') /\
        Dict.get (fs w') directory_name = Some after /\
        forall developer language topic : string,
          In (language, topic) declared_without_content ->
          In (file_name developer language topic) files ->
          Dict.get after (file_name developer language topic)
          = Some (fallback_content language topic))
  /\
  (exists (files : list string) (w' : world) (after : directory),
      create_files_for_directory "eyes" example_world = (Ok files, w') /\
      In "johnSmith.react.performance.md" files /\
      Dict.get (fs w') "eyes" = Some after /\
      Dict.get after "johnSmith.react.performance.md"
      = Some (fallback_content "react" "performance")).
Proof.
  split; [|split].
  - apply Forall_forall. intros [language topic] Hin.
    destruct (declared_without_content_spec Hin) as [Hdecl Hnone].
    split; [assumption|]. split; [assumption|].
    split; [|apply fallback_contains_marker].
    now rewrite get_content_for_topic_eq, (content_for_fallback _ _ Hnone).
  - intros directory_name w before Hdir.
    destruct (create_files_for_directory_spec _ _ Hdir)
      as (num_files & ps & w' & Hrun & _ & _ & Hnd & Hvalid & Hafter).
    exists (map pick_file ps), w', (write_picks before ps).
    split; [assumption|]. split; [assumption|].
    intros developer language topic Hpair Hfile.
    destruct (declared_without_content_spec Hpair) as [Hdecl Hnone].
    destruct (declared_plain Hdecl) as [Hl Ht].
    apply in_map_iff in Hfile as (p & Hname & Hp).
    rewrite <- Hname.
    rewrite (@write_picks_written ps before p (pick_files_NoDup Hvalid Hnd) Hp).
    rewrite Forall_forall in Hvalid. specialize (Hvalid _ Hp).
    pose proof (components_pick_file _ Hvalid) as Hsplit.
    rewrite Hname, (@components_file_name_any developer _ _ Hl Ht) in Hsplit.
    apply last_three in Hsplit as [-> ->].
    destruct p as [[d l] t]. cbn [pick_body fst snd] in *.
    now rewrite (content_for_fallback _ _ Hnone).
  - pose (r := create_files_for_directory "eyes" example_world).
    exists (match fst r with Ok files => files | Raise _ => [] end),
           (snd r),
           (match Dict.get (fs (snd r)) "eyes" with
            | Some entries => entries
            | None => []
            end).
    split; [vm_compute; reflexivity|].
    split; [vm_compute; repeat ((left; reflexivity) || right)|].
    split; vm_compute; reflexivity.
Qed.

Lemma declared_topics_without_content_witness :
  Dict.get (fs example_world) "eyes" = Some [] /\
  exists (files : list string) (w' : world) (after : directory),
    create_files_for_directory "eyes" example_world = (Ok files, w') /\
    Dict.get (fs w') "eyes" = Some after /\
    forall developer language topic : string,
      In (language, topic) declared_without_content ->
      In (file_name developer language topic) files ->
      Dict.get after (file_name developer language topic)
      = Some (fallback_content language topic).
Proof.
  split; [reflexivity|].
  apply (proj1 (proj2 declared_topics_without_content) "eyes" example_world []).
  reflexivity.
Defined.

(* ================================================================== *)
(** * Part III. Further properties of the script *)
(* ================================================================== *)

(** ** More on dictionaries *)

Lemma keys_set (V : Type) (d : dict V) (k : string) (v : V) :
  Dict.keys (Dict.set d k v)
  = (Dict.keys d ++ (if Dict.mem k d then [] else [k]))%list.
Proof.
  unfold Dict.mem. induction d as [|[k' v'] d IH]; [reflexivity|].
  cbn [Dict.set Dict.keys map fst existsb].
  destruct (String.eqb k k') eqn:E; cbn [orb map fst].
  - now rewrite app_nil_r.
  - cbn [app]. f_equal. exact IH.
Qed.

Lemma mem_set (V : Type) (d : dict V) (k g : string) (v : V) :
  Dict.mem g (Dict.set d k v) = Dict.mem g d || String.eqb g k.
Proof.
  unfold Dict.mem at 1. rewrite keys_set, existsb_app.
  fold (Dict.mem g d).
  destruct (Dict.mem k d) eqn:E; cbn [existsb]; [|now rewrite orb_false_r].
  rewrite orb_false_r. destruct (String.eqb_spec g k) as [->|_].
  - now rewrite E.
  - now rewrite orb_false_r.
Qed.

Lemma keys_set_present (V : Type) (d : dict V) (k : string) (v v' : V) :
  Dict.get d k = Some v' -> Dict.keys (Dict.set d k v) = Dict.keys d.
Proof.
  intros H. rewrite keys_set.
  assert (Dict.mem k d = true) as -> by (apply DictFacts.mem_get; now exists v').
  apply app_nil_r.
Qed.

Lemma length_keys (V : Type) (d : dict V) : length (Dict.keys d) = length d.
Proof. apply length_map. Qed.

(** ** What a run leaves alone *)

Lemma same_but_refl (directory_name : string) (f : file_system) :
  same_but directory_name f f.
Proof. split; [reflexivity | intros; reflexivity]. Qed.

Lemma same_but_trans (directory_name : string) (f g h : file_system) :
  same_but directory_name f g -> same_but directory_name g h ->
  same_but directory_name f h.
Proof.
  intros [K1 G1] [K2 G2]. split; [congruence|].
  intros other Hne. now rewrite (G2 _ Hne), (G1 _ Hne).
Qed.

Lemma confined_fs (A : Type) (directory_name : string) (c : M A) :
  (forall w : world, fs (snd (c w)) = fs w) -> confined directory_name c.
Proof. intros H w. rewrite H. apply same_but_refl. Qed.

Lemma confined_bind (A B : Type) (directory_name : string) (c : M A)
    (k : A -> M B) :
  confined directory_name c ->
  (forall a : A, confined directory_name (k a)) ->
  confined directory_name (bind c k).
Proof.
  intros Hc Hk w. rewrite run_bind. specialize (Hc w).
  destruct (c w) as [[a|e] w1]; cbn [snd] in *; [|assumption].
  eapply same_but_trans; [exact Hc | apply Hk].
Qed.

Lemma confined_ret (A : Type) (directory_name : string) (a : A) :
  confined directory_name (ret a : M A).
Proof. now apply confined_fs. Qed.

Lemma confined_raise (A : Type) (directory_name : string) (e : exn) :
  confined directory_name (raise e : M A).
Proof. now apply confined_fs. Qed.

Lemma confined_lift (A : Type) (directory_name : string) (r : result A) :
  confined directory_name (lift r).
Proof. now apply confined_fs. Qed.

Lemma confined_randbelow (directory_name : string) (n : nat) :
  confined directory_name (Random.randbelow n).
Proof. now apply confined_fs. Qed.

Lemma confined_randint (directory_name : string) (a b : Z) :
  confined directory_name (Random.randint a b).
Proof.
  unfold Random.randint. destruct (b <? a)%Z; [apply confined_raise|].
  apply confined_bind; [apply confined_randbelow | intros; apply confined_ret].
Qed.

Lemma confined_choice (A : Type) (directory_name : string) (seq : list A) :
  confined directory_name (Random.choice seq).
Proof.
  unfold Random.choice. destruct seq as [|x seq]; [apply confined_raise|].
  apply confined_bind; [apply confined_randbelow|].
  intros i. destruct (nth_error (x :: seq) i);
    [apply confined_ret | apply confined_raise].
Qed.

Lemma confined_sample_from (A : Type) (directory_name : string) (k : nat) :
  forall pool : list A, confined directory_name (Random.sample_from pool k).
Proof.
  induction k as [|k IH]; intros pool; cbn [Random.sample_from];
    [apply confined_ret|].
  apply confined_bind; [apply confined_randbelow|].
  intros i. destruct (nth_error pool i); [|apply confined_raise].
  apply confined_bind; [apply IH | intros; apply confined_ret].
Qed.

Lemma confined_sample (A : Type) (directory_name : string)
    (population : list A) (k : Z) :
  confined directory_name (Random.sample population k).
Proof.
  unfold Random.sample.
  destruct ((k <? 0)%Z || (len population <? k)%Z);
    [apply confined_raise | apply confined_sample_from].
Qed.

Lemma confined_write_file (directory_name filename body : string) :
  confined directory_name (write_file directory_name filename body).
Proof.
  intros w. unfold write_file.
  destruct (Dict.get (fs w) directory_name) as [entries|] eqn:E;
    cbn [snd fs]; [|apply same_but_refl].
  split.
  - eapply keys_set_present, E.
  - intros other Hne. now apply DictFacts.get_set_other.
Qed.

Lemma confined_create_files_loop (directory_name : string) :
  forall selected_developers files_created : list string,
    confined directory_name
      (create_files_loop directory_name selected_developers files_created).
Proof.
  induction selected_developers as [|developer remaining IH];
    intros files_created; cbn [create_files_loop]; [apply confined_ret|].
  apply confined_bind; [apply confined_choice | intros language].
  apply confined_bind; [apply confined_lift | intros available_topics].
  apply confined_bind; [apply confined_choice | intros topic].
  apply confined_bind; [apply confined_lift | intros body].
  apply confined_bind; [apply confined_write_file | intros _; apply IH].
Qed.

Lemma confined_create_files_for_directory (directory_name : string) :
  confined directory_name (create_files_for_directory directory_name).
Proof.
  unfold create_files_for_directory.
  apply confined_bind; [apply confined_randint | intros num_files].
  apply confined_bind; [apply confined_sample | intros selected].
  apply confined_create_files_loop.
Qed.

(** X1. Run for a directory of a plain name, and whatever its outcome,
    [create_files_for_directory] creates and removes no directory and
    leaves the files of every directory of another plain name as they
    were. *)
Theorem create_files_for_directory_confined (directory_name : string)
    (w : world) :
  simple_name directory_name = true ->
  Dict.keys (fs (snd (create_files_for_directory directory_name w)))
  = Dict.keys (fs w)
  /\
  forall other : string,
    simple_name other = true ->
    other <> directory_name ->
    Dict.get (fs (snd (create_files_for_directory directory_name w))) other
    = Dict.get (fs w) other.
Proof.
  intros _.
  destruct (confined_create_files_for_directory directory_name w)
    as [Hkeys Hframe].
  split; [assumption|]. intros other _. apply Hframe.
Qed.

Lemma create_files_for_directory_confined_witness :
  simple_name "eyes" = true /\
  (Dict.keys
     (fs (snd (create_files_for_directory "eyes"
                 (mkWorld [1; 5; 0; 2; 3]
                          [("eyes", []); ("fleet", [("notes.txt", "keep")])]))))
   = Dict.keys
       (fs (mkWorld [1; 5; 0; 2; 3]
                    [("eyes", []); ("fleet", [("notes.txt", "keep")])]))
   /\
   forall other : string,
     simple_name other = true ->
     other <> "eyes" ->
     Dict.get
       (fs (snd (create_files_for_directory "eyes"
                   (mkWorld [1; 5; 0; 2; 3]
                            [("eyes", []); ("fleet", [("notes.txt", "keep")])]))))
       other
     = Dict.get
         (fs (mkWorld [1; 5; 0; 2; 3]
                      [("eyes", []); ("fleet", [("notes.txt", "keep")])]))
         other).
Proof.
  split; [reflexivity|].
  apply (@create_files_for_directory_confined "eyes"
           (mkWorld [1; 5; 0; 2; 3]
                    [("eyes", []); ("fleet", [("notes.txt", "keep")])])).
  reflexivity.
Defined.


(** ** The directory after a run *)

Lemma keys_write_picks (ps : list pick) :
  forall entries : directory,
    NoDup (map pick_file ps) ->
    Dict.keys (write_picks entries ps)
    = (Dict.keys entries
       ++ filter (fun f => negb (Dict.mem f entries)) (map pick_file ps))%list.
Proof.
  induction ps as [|p ps IH]; intros entries Hnd.
  - cbn [write_picks fold_left map filter]. now rewrite app_nil_r.
  - cbn [map] in Hnd. inversion Hnd as [|? ? Hfresh Hrest]; subst.
    change (write_picks entries (p :: ps))
      with (write_picks (Dict.set entries (pick_file p) (pick_body p)) ps).
    rewrite (IH _ Hrest), keys_set. cbn [map filter].
    assert (filter (fun f => negb (Dict.mem f (Dict.set entries (pick_file p) (pick_body p))))
                   (map pick_file ps)
            = filter (fun f => negb (Dict.mem f entries)) (map pick_file ps))
      as ->.
    { apply filter_ext_in. intros f Hf. rewrite mem_set.
      destruct (String.eqb_spec f (pick_file p)) as [->|_];
        [contradiction | now rewrite orb_false_r]. }
    destruct (Dict.mem (pick_file p) entries); cbn [negb].
    + now rewrite app_nil_r.
    + now rewrite <- app_assoc.
Qed.

(** X3. In a directory that exists, every file a run of
    [create_files_for_directory] returns holds, after the run, exactly the
    body [get_content_for_topic] gives for the language and the topic in
    its name, whatever a file of that name held before; the body is not
    empty. *)
Theorem written_content_matches_name (directory_name : string) (w : world)
    (before : directory) :
  Dict.get (fs w) directory_name = Some before ->
  exists (files : list string) (w' : world) (after : directory),
    create_files_for_directory directory_name w = (Ok files, w') /\
    Dict.get (fs w') directory_name = Some after /\
    Forall (fun filename : string =>
              exists developer language topic body : string,
                split "." filename = [developer; language; topic; "md"] /\
                get_content_for_topic language topic = Ok body /\
                Dict.get after filename = Some body /\
                body <> "")
           files.
Proof.
  intros Hdir.
  destruct (create_files_for_directory_spec _ _ Hdir)
    as (num_files & ps & w' & Hrun & _ & _ & Hnd & Hvalid & Hafter).
  exists (map pick_file ps), w', (write_picks before ps).
  split; [assumption|]. split; [assumption|].
  pose proof (pick_files_NoDup Hvalid Hnd) as Hnames.
  apply Forall_map, Forall_forall. intros p Hp.
  rewrite Forall_forall in Hvalid. specialize (Hvalid _ Hp).
  pose proof (components_pick_file _ Hvalid) as Hsplit.
  pose proof (@write_picks_written ps before p Hnames Hp) as Hget.
  destruct p as [[developer language] topic].
  exists developer, language, topic, (content_for language topic).
  split; [exact Hsplit|]. split; [apply get_content_for_topic_eq|].
  split; [exact Hget|].
  unfold content_for. destruct (catalogued language topic) as [body|] eqn:E.
  - intros ->. unfold catalogued in E.
    destruct (Dict.get LANGUAGE_CONTENT language) as [spec|] eqn:Hspec;
      [|discriminate].
    pose proof (DictFacts.get_in _ _ Hspec) as Hentry.
    pose proof (DictFacts.get_in _ _ E) as Hkv.
    revert Hentry Hkv. clear. intros Hentry Hkv.
    assert (forallb (fun e => forallb (fun kv => negb (String.eqb (snd kv) ""))
                                      (content (snd e)))
                    LANGUAGE_CONTENT = true) as Hall by (vm_compute; reflexivity).
    rewrite forallb_forall in Hall. specialize (Hall _ Hentry).
    cbn [snd] in Hall. rewrite forallb_forall in Hall.
    specialize (Hall _ Hkv). discriminate.
  - unfold fallback_content. rewrite StrFacts.text_cons. discriminate.
Qed.

Lemma written_content_matches_name_witness :
  Dict.get (fs example_world) "eyes" = Some [] /\
  exists (files : list string) (w' : world) (after : directory),
    create_files_for_directory "eyes" example_world = (Ok files, w') /\
    Dict.get (fs w') "eyes" = Some after /\
    Forall (fun filename : string =>
              exists developer language topic body : string,
                split "." filename = [developer; language; topic; "md"] /\
                get_content_for_topic language topic = Ok body /\
                Dict.get after filename = Some body /\
                body <> "")
           files.
Proof.
  split; [reflexivity|].
  apply (@written_content_matches_name "eyes" example_world []). reflexivity.
Defined.

(** ** Every selection is the outcome of a run *)

Lemma create_files_loop_reaches (directory_name : string) (ps : list pick) :
  forall (files_created : list string) (f : file_system) (entries : directory),
    Dict.get f directory_name = Some entries ->
    Forall valid_pick ps ->
    exists used : list nat,
      forall draws : list nat,
      exists f' : file_system,
        create_files_loop directory_name (map pick_developer ps) files_created
                          (mkWorld (used ++ draws) f)
        = (Ok (files_created ++ map pick_file ps)%list, mkWorld draws f').
Proof.
  induction ps as [|[[developer language] topic] ps IH];
    intros files_created f entries Hdir Hvalid.
  - exists []. intros draws. exists f. cbn [map create_files_loop app].
    now rewrite app_nil_r.
  - inversion Hvalid as [|? ? Hp Hrest]; subst.
    destruct Hp as [_ (spec & Hspec & Htopic)].
    assert (In language (Dict.keys LANGUAGE_CONTENT)) as Hkey.
    { apply DictFacts.get_some_in_keys. now exists spec. }
    destruct (In_nth_error _ _ Hkey) as [i Hi].
    destruct (In_nth_error _ _ Htopic) as [j Hj].
    destruct (IH (files_created ++ [file_name developer language topic])%list
                 (Dict.set f directory_name
                           (Dict.set entries (file_name developer language topic)
                                     (content_for language topic)))
                 (Dict.set entries (file_name developer language topic)
                           (content_for language topic)))
      as [used Hused]; [apply DictFacts.get_set_same | assumption |].
    exists (i :: j :: used). intros draws.
    destruct (Hused draws) as [f' Hrun]. exists f'.
    cbn [map pick_developer fst create_files_loop app].
    rewrite (run_bind_ok _ (@RandomFacts.choice_reaches _ _ _ _ _ _ Hi)).
    rewrite (catalog_topics_ok _ Hspec), run_bind, run_lift.
    rewrite (run_bind_ok _ (@RandomFacts.choice_reaches _ _ _ _ _ _ Hj)).
    rewrite get_content_for_topic_eq, run_bind, run_lift.
    rewrite run_bind. unfold write_file at 1. cbn [fs entropy]. rewrite Hdir.
    rewrite Hrun. cbn [pick_file]. now rewrite <- app_assoc.
Qed.

(** X5. Every selection the script allows is the outcome of a run: in a
    directory that exists, for any three to six distinct developers of the
    pool, in any order, each with any language of the catalog and any topic
    declared for it, there are draws for which
    [create_files_for_directory] returns exactly their file names, in that
    order.  Two developers may so get the same language and topic. *)
Theorem every_selection_is_reached (directory_name : string)
    (f : file_system) (before : directory) (ps : list pick) :
  Dict.get f directory_name = Some before ->
  (3 <= len ps <= 6)%Z ->
  NoDup (map pick_developer ps) ->
  Forall valid_pick ps ->
  exists (draws : list nat) (w' : world),
    create_files_for_directory directory_name (mkWorld draws f)
    = (Ok (map pick_file ps), w').
Proof.
  intros Hdir Hlen Hnd Hvalid.
  assert (incl (map pick_developer ps) DEVELOPERS) as Hincl.
  { intros d Hd. apply in_map_iff in Hd as (p & <- & Hp).
    rewrite Forall_forall in Hvalid. specialize (Hvalid _ Hp).
    destruct p as [[developer language] topic]. exact (proj1 Hvalid). }
  destruct (@RandomFacts.sample_from_reaches _ _ _ Hnd Hincl) as [used_sample Hsample].
  destruct (@create_files_loop_reaches directory_name ps [] f before Hdir Hvalid)
    as [used_loop Hloop].
  destruct (Hloop []) as [f' Hrun].
  exists (Z.to_nat (len ps - 3) :: used_sample ++ used_loop ++ [])%list,
         (mkWorld [] f').
  unfold create_files_for_directory.
  rewrite (run_bind_ok _ (@RandomFacts.randint_reaches 3 6 (len ps) _ _ Hlen)).
  unfold Random.sample.
  rewrite DEVELOPERS_length.
  replace (Z.min (len ps) 10) with (len ps) by lia.
  destruct (Z.ltb_spec (len ps) 0) as [H|_]; [lia|].
  destruct (Z.ltb_spec 10 (len ps)) as [H|_]; [lia|]. cbn [orb].
  replace (Z.to_nat (len ps)) with (length (map pick_developer ps))
    by (rewrite length_map; unfold len; lia).
  rewrite (run_bind_ok _ (Hsample _ _)). exact Hrun.
Qed.

Lemma every_selection_is_reached_witness :
  exists (draws : list nat) (w' : world),
    create_files_for_directory "eyes" (mkWorld draws [("eyes", [])])
    = (Ok ["emmaWhite.react.hooks.md"; "ghonDou.react.hooks.md";
           "rajPatel.golang.testing.md"], w').
Proof.
  apply (@every_selection_is_reached "eyes" [("eyes", [])] []
           [("emmaWhite", "react", "hooks"); ("ghonDou", "react", "hooks");
            ("rajPatel", "golang", "testing")]).
  - reflexivity.
  - unfold len. simpl. lia.
  - repeat (constructor; [simpl; intuition discriminate|]). constructor.
  - repeat (constructor;
            [split; [simpl; tauto
                    | eexists; split; [reflexivity | simpl; tauto]]|]).
    constructor.
Defined.

(** ** The shape of a body *)

Lemma LANGUAGE_CONTENT_well_formed :
  forallb well_formed_entry LANGUAGE_CONTENT = true.
Proof. vm_compute. reflexivity. Qed.

Lemma text_ends_with_line_feed (l : string) (ls : list string) :
  endswith nl (text (l :: ls)) = true.
Proof.
  apply StrFacts.endswith_spec. revert l.
  induction ls as [|l' ls IH]; intros l.
  - exists l. reflexivity.
  - destruct (IH l') as [a Ha]. exists (l ++ nl ++ a).
    rewrite StrFacts.text_cons, Ha, !StrFacts.append_assoc. reflexivity.
Qed.

(** X6. Whatever the language and the topic, the body
    [get_content_for_topic] returns starts with a top heading, [# ], and
    ends with a line feed. *)
Theorem every_body_well_formed (language topic : string) :
  exists body : string,
    get_content_for_topic language topic = Ok body /\
    startswith "# " body = true /\
    endswith nl body = true.
Proof.
  exists (content_for language topic).
  split; [apply get_content_for_topic_eq|].
  unfold content_for. destruct (catalogued language topic) as [body|] eqn:E.
  - unfold catalogued in E.
    destruct (Dict.get LANGUAGE_CONTENT language) as [spec|] eqn:Hspec;
      [|discriminate].
    pose proof (DictFacts.get_in _ _ Hspec) as Hentry.
    pose proof (DictFacts.get_in _ _ E) as Hkv.
    pose proof LANGUAGE_CONTENT_well_formed as Hall.
    rewrite forallb_forall in Hall. specialize (Hall _ Hentry).
    unfold well_formed_entry in Hall. cbn [snd] in Hall.
    rewrite forallb_forall in Hall. specialize (Hall _ Hkv).
    cbn [snd] in Hall. unfold well_formed in Hall.
    now apply andb_true_iff in Hall.
  - split.
    + apply StrFacts.startswith_spec. unfold fallback_content.
      rewrite StrFacts.text_cons. eexists.
      rewrite !StrFacts.append_assoc. reflexivity.
    + apply text_ends_with_line_feed.
Qed.

(** ** The entry point *)

Lemma main_loop_cons (d : string) (remaining : list string) (total_files : Z)
    (w : world) :
  main_loop (d :: remaining) total_files w
  = match process_directory d w with
    | (Ok files, w1) => main_loop remaining (total_files + len files)%Z w1
    | (Raise e, w1) => (Raise e, w1)
    end.
Proof.
  cbn [main_loop]. unfold process_directory, path_exists.
  rewrite !run_bind.
  destruct ((if Dict.mem d (fs w) then ret tt else mkdir d) w)
    as [[[]|e] w0]; [|reflexivity].
  rewrite run_bind.
  now destruct (create_files_for_directory d w0) as [[files|e] w1].
Qed.

Lemma process_directory_spec (d : string) (w : world) :
  exists (ps : list pick) (w1 : world),
    process_directory d w = (Ok (map pick_file ps), w1) /\
    (3 <= len ps <= 6)%Z /\
    NoDup (map pick_developer ps) /\
    Forall valid_pick ps /\
    Dict.get (fs w1) d = Some (write_picks (files_of (fs w) d) ps) /\
    (forall other : string,
        other <> d -> Dict.get (fs w1) other = Dict.get (fs w) other).
Proof.
  unfold process_directory, path_exists. rewrite run_bind.
  assert (exists w0 : world,
             (if Dict.mem d (fs w) then ret tt else mkdir d) w = (Ok tt, w0) /\
             Dict.get (fs w0) d = Some (files_of (fs w) d) /\
             (forall other : string,
                 other <> d -> Dict.get (fs w0) other = Dict.get (fs w) other))
    as (w0 & Hensure & Hdir & Hframe0).
  { unfold files_of. destruct (Dict.mem d (fs w)) eqn:E.
    - apply DictFacts.mem_get in E as [entries E]. exists w.
      rewrite E. repeat split.
    - unfold mkdir. rewrite E. apply DictFacts.mem_false_get in E.
      rewrite E. eexists. split; [reflexivity|]. cbn [fs]. split.
      + apply DictFacts.get_set_same.
      + intros other Hne. now apply DictFacts.get_set_other. }
  rewrite (run_bind_ok _ Hensure).
  destruct (create_files_for_directory_spec _ _ Hdir)
    as (num_files & ps & w1 & Hrun & Hrange & Hlen & Hnd & Hvalid & Hafter).
  exists ps, w1. split; [assumption|].
  split; [rewrite Hlen, DEVELOPERS_length; lia|].
  split; [assumption|]. split; [assumption|]. split; [assumption|].
  intros other Hne. rewrite <- (Hframe0 _ Hne).
  pose proof (confined_create_files_for_directory d w0) as [_ Hframe].
  rewrite Hrun in Hframe. now apply Hframe.
Qed.

Lemma write_picks_length (before : directory) (ps : list pick) :
  NoDup (map pick_file ps) ->
  (len ps <= len (write_picks before ps))%Z.
Proof.
  intros Hnd. unfold len.
  rewrite <- (length_keys (write_picks before ps)).
  rewrite <- (length_map pick_file ps).
  apply inj_le, NoDup_incl_length; [assumption|].
  intros f Hf. apply in_map_iff in Hf as (p & <- & Hp).
  apply DictFacts.get_some_in_keys. exists (pick_body p).
  now apply write_picks_written.
Qed.

Lemma write_picks_fresh_length (ps : list pick) :
  NoDup (map pick_file ps) -> len (write_picks [] ps) = len ps.
Proof.
  intros Hnd. unfold len.
  rewrite <- (length_keys (write_picks [] ps)), (@keys_write_picks ps [] Hnd).
  cbn [Dict.keys map app].
  rewrite <- (length_map pick_file ps). f_equal. f_equal. clear Hnd.
  induction (map pick_file ps) as [|f names IH]; [reflexivity|].
  simpl in *. f_equal. exact IH.
Qed.

Lemma kept_refl (f : file_system) : kept f f.
Proof.
  intros d entries Hd. exists entries. split; [assumption|].
  intros name body Hb. exists body. now split.
Qed.

Lemma kept_trans (f g h : file_system) : kept f g -> kept g h -> kept f h.
Proof.
  intros Hfg Hgh d entries Hd.
  destruct (Hfg _ _ Hd) as (entries1 & Hd1 & H1).
  destruct (Hgh _ _ Hd1) as (entries2 & Hd2 & H2).
  exists entries2. split; [assumption|].
  intros name body Hb.
  destruct (H1 _ _ Hb) as (body1 & Hb1 & Hsame1).
  destruct (H2 _ _ Hb1) as (body2 & Hb2 & Hsame2).
  exists body2. split; [assumption|].
  intros Hdev. now rewrite (Hsame2 Hdev), (Hsame1 Hdev).
Qed.

Lemma process_directory_kept (d : string) (w w1 : world) (ps : list pick) :
  NoDup (map pick_developer ps) ->
  Forall valid_pick ps ->
  Dict.get (fs w1) d = Some (write_picks (files_of (fs w) d) ps) ->
  (forall other : string,
      other <> d -> Dict.get (fs w1) other = Dict.get (fs w) other) ->
  kept (fs w) (fs w1).
Proof.
  intros Hnd Hvalid Hafter Hframe d' entries Hd'.
  destruct (string_dec d' d) as [->|Hne].
  - unfold files_of in Hafter. rewrite Hd' in Hafter.
    exists (write_picks entries ps). split; [assumption|].
    intros name body Hb.
    destruct (in_dec string_dec name (map pick_file ps)) as [Hin|Hout].
    + apply in_map_iff in Hin as (p & <- & Hp).
      exists (pick_body p). split.
      * apply write_picks_written; [now apply pick_files_NoDup | assumption].
      * intros Hdev. exfalso. apply Hdev.
        rewrite Forall_forall in Hvalid. specialize (Hvalid _ Hp).
        rewrite (developer_of_pick_file _ Hvalid).
        destruct p as [[developer language] topic]. exact (proj1 Hvalid).
    + exists body. split; [|reflexivity].
      now rewrite write_picks_other.
  - exists entries. split; [now rewrite (Hframe _ Hne)|].
    intros name body Hb. exists body. now split.
Qed.

Lemma main_loop_spec (todo : list string) :
  forall (total_files : Z) (w : world),
    exists (total : Z) (w' : world),
      main_loop todo total_files w = (Ok total, w') /\
      (total_files + 3 * len todo <= total <= total_files + 6 * len todo)%Z /\
      (forall other : string,
          ~ In other todo -> Dict.get (fs w') other = Dict.get (fs w) other) /\
      (forall d : string,
          In d todo ->
          exists entries : directory,
            Dict.get (fs w') d = Some entries /\ (3 <= len entries)%Z) /\
      kept (fs w) (fs w').
Proof.
  induction todo as [|d remaining IH]; intros total_files w.
  - exists total_files, w. cbn [main_loop]. split; [reflexivity|].
    split; [unfold len; simpl; lia|]. split; [reflexivity|].
    split; [intros d []| apply kept_refl].
  - destruct (process_directory_spec d w)
      as (ps & w1 & Hrun & Hrange & Hnd & Hvalid & Hafter & Hframe).
    destruct (IH (total_files + len (map pick_file ps))%Z w1)
      as (total & w' & Hrest & Htotal & Hframe' & Hdirs & Hkept).
    exists total, w'. rewrite main_loop_cons, Hrun.
    split; [assumption|].
    assert (len (map pick_file ps) = len ps) as Hlen
        by (unfold len; now rewrite length_map).
    split.
    { rewrite Hlen in Htotal. unfold len in *. cbn [length]. lia. }
    split.
    { intros other Hother. rewrite Hframe'.
      - apply Hframe. intros ->. apply Hother. now left.
      - intros H. apply Hother. now right. }
    split.
    { intros d' [<-|Hd'].
      - destruct (in_dec string_dec d remaining) as [Hin|Hout];
          [now apply Hdirs|].
        exists (write_picks (files_of (fs w) d) ps).
        rewrite (Hframe' _ Hout). split; [assumption|].
        pose proof (@write_picks_length (files_of (fs w) d) ps
                      (pick_files_NoDup Hvalid Hnd)). lia.
      - now apply Hdirs. }
    eapply kept_trans; [|exact Hkept].
    now apply (@process_directory_kept d w w1 ps).
Qed.

(** X7. Where, at the start, each of the five names of [main] either
    names a directory or names nothing, [main] raises nothing, also on a
    run over directories that earlier runs have filled; the total it
    reports lies between 15 and 30; and afterwards each of the five
    directories exists and holds at least three files. *)
Theorem main_populates_directories (w : world) :
  (forall d : string,
      In d ["eyes"; "fleet"; "flex"; "ido"; "mind"] ->
      Dict.get (fs w) d = None \/
      exists entries : directory, Dict.get (fs w) d = Some entries) ->
  exists (total : Z) (w' : world),
    main w = (Ok total, w') /\
    (15 <= total <= 30)%Z /\
    forall d : string,
      In d ["eyes"; "fleet"; "flex"; "ido"; "mind"] ->
      exists entries : directory,
        Dict.get (fs w') d = Some entries /\ (3 <= len entries)%Z.
Proof.
  intros _.
  destruct (main_loop_spec directories 0 w)
    as (total & w' & Hrun & Htotal & _ & Hdirs & _).
  exists total, w'. split; [assumption|]. split; [|assumption].
  change (len directories) with 5%Z in Htotal. lia.
Qed.

Lemma main_populates_directories_witness :
  (forall d : string,
      In d ["eyes"; "fleet"; "flex"; "ido"; "mind"] ->
      Dict.get (fs (mkWorld [2; 1; 4]
                            [("eyes", [("rajPatel.react.hooks.md", "old")])])) d
      = None \/
      exists entries : directory,
        Dict.get (fs (mkWorld [2; 1; 4]
                              [("eyes", [("rajPatel.react.hooks.md", "old")])])) d
        = Some entries) /\
  exists (total : Z) (w' : world),
    main (mkWorld [2; 1; 4] [("eyes", [("rajPatel.react.hooks.md", "old")])])
    = (Ok total, w') /\
    (15 <= total <= 30)%Z /\
    forall d : string,
      In d ["eyes"; "fleet"; "flex"; "ido"; "mind"] ->
      exists entries : directory,
        Dict.get (fs w') d = Some entries /\ (3 <= len entries)%Z.
Proof.
  assert (forall d : string,
             In d ["eyes"; "fleet"; "flex"; "ido"; "mind"] ->
             Dict.get (fs (mkWorld [2; 1; 4]
                                   [("eyes", [("rajPatel.react.hooks.md", "old")])])) d
             = None \/
             exists entries : directory,
               Dict.get (fs (mkWorld [2; 1; 4]
                                     [("eyes", [("rajPatel.react.hooks.md", "old")])])) d
               = Some entries) as Hstart.
  { intros d [<-|[<-|[<-|[<-|[<-|[]]]]]];
      [right; eexists; reflexivity | left; reflexivity ..]. }
  split; [exact Hstart|].
  apply (@main_populates_directories
           (mkWorld [2; 1; 4] [("eyes", [("rajPatel.react.hooks.md", "old")])])).
  exact Hstart.
Defined.

(** X8. [main] removes nothing: a directory that is not one of its five is
    as it was; every directory and every file that was there is still
    there; and a file whose name does not start with the name of a
    developer holds what it held. *)
Theorem main_keeps_what_was_there (w : world) :
  exists (total : Z) (w' : world),
    main w = (Ok total, w') /\
    (forall other : string,
        ~ In other ["eyes"; "fleet"; "flex"; "ido"; "mind"] ->
        Dict.get (fs w') other = Dict.get (fs w) other) /\
    (forall (d : string) (entries : directory),
        Dict.get (fs w) d = Some entries ->
        exists entries' : directory,
          Dict.get (fs w') d = Some entries' /\
          forall name body : string,
            Dict.get entries name = Some body ->
            exists body' : string,
              Dict.get entries' name = Some body' /\
              (~ In (developer_of name) DEVELOPERS -> body' = body)).
Proof.
  destruct (main_loop_spec directories 0 w)
    as (total & w' & Hrun & _ & Hframe & _ & Hkept).
  exists total, w'. split; [assumption|]. split; [assumption|].
  intros d entries Hd. destruct (Hkept _ _ Hd) as (entries' & Hd' & H).
  exists entries'. split; [assumption|].
  intros name body Hb. destruct (H _ _ Hb) as (body' & Hb' & Hsame).
  exists body'. now split.
Qed.

Lemma main_loop_fresh (todo : list string) :
  forall (total_files : Z) (w : world),
    NoDup todo ->
    (forall d : string, In d todo -> Dict.get (fs w) d = None) ->
    exists (total : Z) (w' : world),
      main_loop todo total_files w = (Ok total, w') /\
      total = (total_files + count_files (fs w') todo)%Z /\
      (forall d : string,
          In d todo ->
          exists ps : list pick,
            Dict.get (fs w') d = Some (write_picks [] ps) /\
            (3 <= len ps <= 6)%Z /\
            NoDup (map pick_developer ps) /\
            Forall valid_pick ps) /\
      (forall other : string,
          ~ In other todo -> Dict.get (fs w') other = Dict.get (fs w) other).
Proof.
  induction todo as [|d remaining IH]; intros total_files w Hnd Hnone.
  - exists total_files, w. cbn [main_loop count_files fold_right].
    split; [reflexivity|]. split; [lia|]. split; [intros d []|reflexivity].
  - inversion Hnd as [|? ? Hd Hrest]; subst.
    destruct (process_directory_spec d w)
      as (ps & w1 & Hrun & Hrange & Hdev & Hvalid & Hafter & Hframe).
    unfold files_of in Hafter. rewrite (Hnone d (or_introl eq_refl)) in Hafter.
    destruct (IH (total_files + len (map pick_file ps))%Z w1 Hrest)
      as (total & w' & Hloop & Htotal & Hcounts & Hframe').
    { intros d' Hd'. rewrite Hframe by (intros ->; contradiction).
      apply Hnone. now right. }
    assert (Dict.get (fs w') d = Some (write_picks [] ps)) as Hhere
        by now rewrite (Hframe' _ Hd).
    exists total, w'. rewrite main_loop_cons, Hrun.
    split; [assumption|]. split; [|split].
    + cbn [count_files fold_right]. fold (count_files (fs w') remaining).
      unfold files_of at 1. rewrite Hhere, Htotal.
      rewrite (@write_picks_fresh_length ps (pick_files_NoDup Hvalid Hdev)).
      unfold len at 1. rewrite length_map. fold (len ps). lia.
    + intros d' [<-|Hd']; [now exists ps | now apply Hcounts].
    + intros other Hother. rewrite Hframe'.
      * apply Hframe. intros ->. apply Hother. now left.
      * intros H. apply Hother. now right.
Qed.

Lemma directories_NoDup : NoDup directories.
Proof.
  unfold directories.
  repeat (constructor; [simpl; intuition discriminate|]). constructor.
Qed.

(** X9. Where none of its five directories exists at the start, [main]
    creates each of them with between three and six files, and the total
    it reports is the number of files in the five directories. *)
Theorem main_counts_files (w : world) :
  (forall d : string,
      In d ["eyes"; "fleet"; "flex"; "ido"; "mind"] ->
      Dict.get (fs w) d = None) ->
  exists (total : Z) (w' : world),
    main w = (Ok total, w') /\
    total = count_files (fs w') ["eyes"; "fleet"; "flex"; "ido"; "mind"] /\
    forall d : string,
      In d ["eyes"; "fleet"; "flex"; "ido"; "mind"] ->
      exists entries : directory,
        Dict.get (fs w') d = Some entries /\ (3 <= len entries <= 6)%Z.
Proof.
  intros Hnone.
  destruct (@main_loop_fresh directories 0%Z w directories_NoDup Hnone)
    as (total & w' & Hrun & Htotal & Hdirs & _).
  exists total, w'. split; [assumption|].
  split; [rewrite Htotal; apply Z.add_0_l|].
  intros d Hd. destruct (Hdirs d Hd) as (ps & Hentries & Hrange & Hdev & Hvalid).
  exists (write_picks [] ps). split; [assumption|].
  now rewrite (@write_picks_fresh_length ps (pick_files_NoDup Hvalid Hdev)).
Qed.

Lemma main_counts_files_witness :
  (forall d : string,
      In d ["eyes"; "fleet"; "flex"; "ido"; "mind"] ->
      Dict.get (fs (mkWorld [1; 4; 2; 0; 3] [("docs", [("notes.txt", "keep")])])) d
      = None) /\
  exists (total : Z) (w' : world),
    main (mkWorld [1; 4; 2; 0; 3] [("docs", [("notes.txt", "keep")])])
    = (Ok total, w') /\
    total = count_files (fs w') ["eyes"; "fleet"; "flex"; "ido"; "mind"] /\
    forall d : string,
      In d ["eyes"; "fleet"; "flex"; "ido"; "mind"] ->
      exists entries : directory,
        Dict.get (fs w') d = Some entries /\ (3 <= len entries <= 6)%Z.
Proof.
  assert (forall d : string,
             In d ["eyes"; "fleet"; "flex"; "ido"; "mind"] ->
             Dict.get (fs (mkWorld [1; 4; 2; 0; 3]
                                   [("docs", [("notes.txt", "keep")])])) d
             = None) as Hnone.
  { intros d [<-|[<-|[<-|[<-|[<-|[]]]]]]; reflexivity. }
  split; [exact Hnone|].
  apply (@main_counts_files
           (mkWorld [1; 4; 2; 0; 3] [("docs", [("notes.txt", "keep")])])).
  exact Hnone.
Defined.

Lemma write_picks_fresh_inv (ps : list pick) (name body : string) :
  NoDup (map pick_file ps) ->
  Dict.get (write_picks [] ps) name = Some body ->
  exists p : pick, In p ps /\ name = pick_file p /\ body = pick_body p.
Proof.
  intros Hnd Hget.
  destruct (in_dec string_dec name (map pick_file ps)) as [Hin|Hout].
  - apply in_map_iff in Hin as (p & <- & Hp). exists p.
    rewrite (@write_picks_written ps [] p Hnd Hp) in Hget.
    injection Hget as <-. now repeat split.
  - rewrite write_picks_other in Hget by assumption. discriminate.
Qed.

(** X10. Where none of its five directories exists at the start, every
    file found in them after [main] is named
    [developer.language.topic.md] for a developer of the pool, a language
    of the catalog and a topic declared for it, and holds the body
    [get_content_for_topic] gives for that language and topic; and no two
    files of a directory are of the same developer. *)
Theorem main_writes_only_catalog_files (w : world) :
  (forall d : string,
      In d ["eyes"; "fleet"; "flex"; "ido"; "mind"] ->
      Dict.get (fs w) d = None) ->
  exists (total : Z) (w' : world),
    main w = (Ok total, w') /\
    forall d : string,
      In d ["eyes"; "fleet"; "flex"; "ido"; "mind"] ->
      exists entries : directory,
        Dict.get (fs w') d = Some entries /\
        NoDup (map developer_of (Dict.keys entries)) /\
        forall name body : string,
          Dict.get entries name = Some body ->
          exists developer language topic : string,
            split "." name = [developer; language; topic; "md"] /\
            In developer DEVELOPERS /\
            declared language topic /\
            get_content_for_topic language topic = Ok body.
Proof.
  intros Hnone.
  destruct (@main_loop_fresh directories 0%Z w directories_NoDup Hnone)
    as (total & w' & Hrun & _ & Hdirs & _).
  exists total, w'. split; [assumption|].
  intros d Hd. destruct (Hdirs d Hd) as (ps & Hentries & _ & Hdev & Hvalid).
  pose proof (pick_files_NoDup Hvalid Hdev) as Hnames.
  exists (write_picks [] ps). split; [assumption|]. split.
  - rewrite (@keys_write_picks ps [] Hnames). cbn [Dict.keys map app].
    assert (filter (fun f => negb (Dict.mem f ([] : directory)))
                   (map pick_file ps) = map pick_file ps) as ->.
    { clear. induction (map pick_file ps) as [|f names IH]; [reflexivity|].
      simpl in *. f_equal. exact IH. }
    now rewrite (map_developer_of Hvalid).
  - intros name body Hget.
    destruct (write_picks_fresh_inv _ _ Hnames Hget) as (p & Hp & -> & ->).
    rewrite Forall_forall in Hvalid. specialize (Hvalid _ Hp).
    pose proof (components_pick_file _ Hvalid) as Hsplit.
    destruct p as [[developer language] topic].
    exists developer, language, topic. destruct Hvalid as [Hpool Hdecl].
    split; [exact Hsplit|]. split; [assumption|]. split; [assumption|].
    apply get_content_for_topic_eq.
Qed.

Lemma main_writes_only_catalog_files_witness :
  (forall d : string,
      In d ["eyes"; "fleet"; "flex"; "ido"; "mind"] ->
      Dict.get (fs (mkWorld [3; 0; 5; 2; 2; 7] [])) d = None) /\
  exists (total : Z) (w' : world),
    main (mkWorld [3; 0; 5; 2; 2; 7] []) = (Ok total, w') /\
    forall d : string,
      In d ["eyes"; "fleet"; "flex"; "ido"; "mind"] ->
      exists entries : directory,
        Dict.get (fs w') d = Some entries /\
        NoDup (map developer_of (Dict.keys entries)) /\
        forall name body : string,
          Dict.get entries name = Some body ->
          exists developer language topic : string,
            split "." name = [developer; language; topic; "md"] /\
            In developer DEVELOPERS /\
            declared language topic /\
            get_content_for_topic language topic = Ok body.
Proof.
  assert (forall d : string,
             In d ["eyes"; "fleet"; "flex"; "ido"; "mind"] ->
             Dict.get (fs (mkWorld [3; 0; 5; 2; 2; 7] [])) d = None) as Hnone.
  { intros d _. reflexivity. }
  split; [exact Hnone|].
  apply (@main_writes_only_catalog_files (mkWorld [3; 0; 5; 2; 2; 7] [])).
  exact Hnone.
Defined.
